(** * CVRP: the address record and the distance-matrix cache

    A shallow embedding of [Address.py] and [DistanceMatrix.py].

    Python values that travel through the code (JSON bodies returned by
    [requests.get(...).json()], attribute values of an [Address] instance)
    are modelled by the inductive type [value].  Code that mutates state or
    raises is written in a state-and-exception monad in which the state
    survives a raise, as the attributes of a Python object do.  The two web
    services are an oracle [Network], a function from the history of the
    requests performed so far and the current request to what
    [requests.get(...).json()] evaluates to (a body, or a failure). *)

From Stdlib Require Import Ascii String QArith.
From stdpp Require Import base gmap sets list strings.

Set Warnings "-register-all".

(** ** Python values *)

(** A Python [int] or [float], as far as comparisons see it: not-a-number,
    an infinity, or a finite number.  Comparing an [int] with a [float] is
    exact in Python, so the finite numbers are rationals. *)
Inductive number :=
| NaN
| Inf (negative : bool)
| Fin (q : Q).

Inductive value :=
| VNone
| VBool (b : bool)
| VNum (x : number)
| VStr (s : string)
| VList (l : list value)
| VDict (d : list (string * value)).

Inductive exn :=
| KeyError
| IndexError
| TypeError
| ValueError
| ZeroDivisionError
| AttributeError
| RequestException
| Exception (msg : string).

Inductive outcome (A : Type) :=
| Ok (a : A)
| Raise (e : exn).
Arguments Ok {A} a.
Arguments Raise {A} e.

Definition Qltb (p q : Q) : bool := negb (Qle_bool q p).

(** [x < y] on numbers: every comparison with not-a-number is false. *)
Definition num_lt (x y : number) : bool :=
  match x, y with
  | NaN, _ | _, NaN => false
  | Inf true, Inf true => false
  | Inf true, _ => true
  | _, Inf true => false
  | Inf false, _ => false
  | Fin _, Inf false => true
  | Fin p, Fin q => Qltb p q
  end.

Definition num_le (x y : number) : bool :=
  match x, y with
  | NaN, _ | _, NaN => false
  | Inf true, _ => true
  | _, Inf true => false
  | _, Inf false => true
  | Inf false, Fin _ => false
  | Fin p, Fin q => Qle_bool p q
  end.

Definition num_eq (x y : number) : bool :=
  match x, y with
  | Inf a, Inf b => eqb a b
  | Fin p, Fin q => Qeq_bool p q
  | _, _ => false
  end.

Definition of_Z (z : Z) : number := Fin (inject_Z z).

(** [bool] is a subclass of [int]: [True] is 1 and [False] is 0. *)
Definition as_number (v : value) : option number :=
  match v with
  | VNum x => Some x
  | VBool b => Some (of_Z (if b then 1 else 0))
  | _ => None
  end.

(** [v < z] and [v > z] for an integer literal [z]: ordering a string, a
    list, a dict or [None] against an [int] is a [TypeError]. *)
Definition py_lt_int (v : value) (z : Z) : outcome bool :=
  match as_number v with
  | Some x => Ok (num_lt x (of_Z z))
  | None => Raise TypeError
  end.

Definition py_gt_int (v : value) (z : Z) : outcome bool :=
  match as_number v with
  | Some x => Ok (num_lt (of_Z z) x)
  | None => Raise TypeError
  end.

(** [v == z] for an integer literal [z]; never raises. *)
Definition py_eq_int (v : value) (z : Z) : bool :=
  match as_number v with
  | Some x => num_eq x (of_Z z)
  | None => false
  end.

(** Truth value of [v], as [not v] and [if v] compute it. *)
Definition truthy (v : value) : bool :=
  match v with
  | VNone => false
  | VBool b => b
  | VNum (Fin q) => negb (Qeq_bool q 0)
  | VNum _ => true
  | VStr s => negb (String.eqb s "")
  | VList l => negb (bool_decide (length l = 0))
  | VDict d => negb (bool_decide (length d = 0))
  end.

(** A dict is an association list; the first binding of a key is the one
    that counts.  A Python dict binds a key once, so the dicts of the
    program are the lists without a repeated key. *)
Fixpoint dict_get (d : list (string * value)) (k : string) : option value :=
  match d with
  | [] => None
  | (k', v) :: d' => if String.eqb k' k then Some v else dict_get d' k
  end.

(** [len(v)] *)
Definition py_len (v : value) : outcome nat :=
  match v with
  | VStr s => Ok (String.length s)
  | VList l => Ok (length l)
  | VDict d => Ok (length d)
  | _ => Raise TypeError
  end.

(** [v[k]] for a string key [k] *)
Definition py_getitem_str (v : value) (k : string) : outcome value :=
  match v with
  | VDict d =>
      match dict_get d k with
      | Some x => Ok x
      | None => Raise KeyError
      end
  | _ => Raise TypeError
  end.

(** [v[i]] for a non-negative integer literal [i]; the keys of a dict that
    comes from JSON are strings, so an integer key is never found. *)
Definition py_getitem_int (v : value) (i : nat) : outcome value :=
  match v with
  | VList l =>
      match l !! i with
      | Some x => Ok x
      | None => Raise IndexError
      end
  | VStr s =>
      match String.get i s with
      | Some c => Ok (VStr (String c EmptyString))
      | None => Raise IndexError
      end
  | VDict _ => Raise KeyError
  | _ => Raise TypeError
  end.

Fixpoint chars (s : string) : list value :=
  match s with
  | EmptyString => []
  | String c s' => VStr (String c EmptyString) :: chars s'
  end.

(** The elements [for x in v], [enumerate(v)] and [tuple(v)] go through. *)
Definition py_iter (v : value) : outcome (list value) :=
  match v with
  | VList l => Ok l
  | VStr s => Ok (chars s)
  | VDict d => Ok (map (λ kv, VStr kv.1) d)
  | _ => Raise TypeError
  end.

(** [a, b = t] *)
Definition unpack2 (t : list value) : outcome (value * value) :=
  match t with
  | [a; b] => Ok (a, b)
  | _ => Raise ValueError
  end.

#[global] Instance outcome_ret : MRet outcome := λ A a, Ok a.
#[global] Instance outcome_bind : MBind outcome := λ A B f o,
  match o with
  | Ok a => f a
  | Raise e => Raise e
  end.

(** ** The state-and-exception monad *)

Definition M (S A : Type) : Type := S → outcome A * S.

#[global] Instance M_ret {S} : MRet (M S) := λ A a s, (Ok a, s).
#[global] Instance M_bind {S} : MBind (M S) := λ A B f m s,
  match m s with
  | (Ok a, s') => f a s'
  | (Raise e, s') => (Raise e, s')
  end.

Definition raise {S A} (e : exn) : M S A := λ s, (Raise e, s).
Definition lift {S A} (o : outcome A) : M S A := λ s, (o, s).

(** ** The outside world *)

Record request := { url : string; params : list (string * value) }.

(** What [requests.get(url, params).json()] evaluates to, given the requests
    performed before: the decoded body, or [None] when the call fails (no
    connection, a body that is not JSON), which [requests] reports by
    raising a [RequestException]. *)
Definition Network : Type := list request → request → option value.

Definition answer (o : option value) : outcome value :=
  match o with
  | Some body => Ok body
  | None => Raise RequestException
  end.

(** ** Private names

    Inside [class C], an identifier that starts with two underscores and
    does not end with two is rewritten to [_C__name]: the attribute that
    [self.__info] names in [class Address] is [_Address__info]. *)

Fixpoint strip_underscores (s : string) : string :=
  match s with
  | String "_"%char s' => strip_underscores s'
  | _ => s
  end.

Definition ends_with (suffix s : string) : bool :=
  String.prefix (String.rev suffix) (String.rev s).

Definition mangle (cls name : string) : string :=
  if String.prefix "__" name && negb (ends_with "__" name)
  then "_" +:+ strip_underscores cls +:+ name
  else name.

(** * Address.py *)

Module Address.

(** An instance is its dictionary of attributes.  [self.__info = v] inside
    the class writes the attribute [_Address__info]; [self._info] reads the
    attribute [_info], a different one. *)

(** The attribute names, as the compiler sees them in [class Address]. *)
Definition __street : string := Eval cbv in mangle "Address" "__street".
Definition __city : string := Eval cbv in mangle "Address" "__city".
Definition __state : string := Eval cbv in mangle "Address" "__state".
Definition __country : string := Eval cbv in mangle "Address" "__country".
Definition __zipcode : string := Eval cbv in mangle "Address" "__zipcode".
Definition __latitude : string := Eval cbv in mangle "Address" "__latitude".
Definition __longitude : string := Eval cbv in mangle "Address" "__longitude".
Definition __info : string := Eval cbv in mangle "Address" "__info".
Definition _info : string := Eval cbv in mangle "Address" "_info".

(** The state: the instance dictionary of [self] and the requests sent to
    the geocoding service so far. *)
Record St := { self : gmap string value; trace : list request }.

Definition getattr (name : string) : M St value := λ s,
  match self s !! name with
  | Some v => (Ok v, s)
  | None => (Raise AttributeError, s)
  end.

Definition setattr (name : string) (v : value) : M St unit := λ s,
  (Ok tt, {| self := <[name := v]> (self s); trace := trace s |}).

(** [Address(street, city, state, country, zipcode)] *)
Definition __init__ (street city state country zipcode : string)
  : gmap string value :=
  <[__info := VDict []]>
  (<[__longitude := VNum NaN]>
  (<[__latitude := VNum NaN]>
  (<[__zipcode := VStr zipcode]>
  (<[__country := VStr country]>
  (<[__state := VStr state]>
  (<[__city := VStr city]>
  (<[__street := VStr street]> ∅))))))).

(** The properties *)
Definition street : M St value := getattr __street.
Definition city : M St value := getattr __city.
Definition state : M St value := getattr __state.
Definition country : M St value := getattr __country.
Definition zipcode : M St value := getattr __zipcode.
Definition latitude : M St value := getattr __latitude.
Definition longitude : M St value := getattr __longitude.
Definition info : M St value := getattr _info.
Definition coordinates : M St (value * value) :=
  lat ← getattr __latitude;
  lon ← getattr __longitude;
  mret (lat, lon).

(** [Address.Geocode.__api_urls['base'] + Address.Geocode.__api_urls['search']] *)
Definition search_url : string :=
  "https://nominatim.openstreetmap.org/" +:+ "search/".

(** [tuple(info['features'][0]['geometry']['coordinates'])], unpacked into
    two names *)
Definition coordinate_pair (info : value) : outcome (value * value) :=
  features ← py_getitem_str info "features";
  first ← py_getitem_int features 0;
  geometry ← py_getitem_str first "geometry";
  coords ← py_getitem_str geometry "coordinates";
  items ← py_iter coords;
  unpack2 items.

(** [v < -bound or v > bound] *)
Definition out_of_range (v : value) (bound : Z) : outcome bool :=
  below ← py_lt_int v (- bound);
  if (below : bool) then Ok true else py_gt_int v bound.

(** [-bound <= v <= bound] *)
Definition in_range (v : value) (bound : Z) : bool :=
  match as_number v with
  | Some x => num_le (of_Z (- bound)) x && num_le x (of_Z bound)
  | None => false
  end.

Section WithNetwork.

Variable net : Network.

(** [requests.get(url=url, params=parameters).json()] *)
Definition requests_get_json (r : request) : M St value := λ s,
  (answer (net (trace s) r), {| self := self s; trace := trace s ++ [r] |}).

(** [Address.Geocode.get_geocode(self).json()] *)
Definition get_geocode_json : M St value :=
  p_street ← street;
  p_city ← city;
  p_state ← state;
  p_country ← country;
  p_zipcode ← zipcode;
  let parameters :=
    [("street", p_street); ("city", p_city); ("state", p_state);
     ("country", p_country); ("postalcode", p_zipcode);
     ("format", VStr "geocodejson"); ("polygon_svg", VNum (of_Z 1))] in
  requests_get_json
    {| url := search_url; params := parameters |}.

Definition latitude_message : string :=
  "Illegal argument, latitude must be between -90 and 90".
Definition longitude_message : string :=
  "Illegal argument, longitude must be between -180 and 180".

(** [x or y] on booleans: [y] is evaluated only when [x] is false. *)
Definition or_else (x : bool) (y : M St bool) : M St bool :=
  if x then mret true else y.

(** [if c: raise e] *)
Definition raise_if (c : bool) (e : exn) : M St unit :=
  if c then raise e else mret tt.

Definition geocode : M St unit :=
  old ← getattr __info;
  if negb (truthy old) then
    body ← get_geocode_json;
    _ ← setattr __info body;
    info ← getattr __info;
    '(longitude, latitude) ← lift (coordinate_pair info);
    below ← lift (py_lt_int latitude (-90));
    bad ← or_else below (lift (py_gt_int latitude 90));
    _ ← raise_if bad (Exception latitude_message);
    below ← lift (py_lt_int longitude (-180));
    bad ← or_else below (lift (py_gt_int longitude 180));
    _ ← raise_if bad (Exception longitude_message);
    _ ← setattr __latitude latitude;
    setattr __longitude longitude
  else mret tt.

(** [geocode] read statement by statement, for reasoning by cases. *)
Definition set_info (body : value) (s : St) : St :=
  {| self := <[__info := body]> (self s); trace := trace s |}.

Definition set_coordinates (lat lon : value) (s : St) : St :=
  {| self := <[__longitude := lon]> (<[__latitude := lat]> (self s));
     trace := trace s |}.

Definition geocode_steps (s : St) : outcome unit * St :=
  match self s !! __info with
  | None => (Raise AttributeError, s)
  | Some old =>
      if truthy old then (Ok tt, s) else
      match get_geocode_json s with
      | (Raise e, s1) => (Raise e, s1)
      | (Ok body, s1) =>
          let s2 := set_info body s1 in
          match coordinate_pair body with
          | Raise e => (Raise e, s2)
          | Ok (lon, lat) =>
              match out_of_range lat 90 with
              | Raise e => (Raise e, s2)
              | Ok true => (Raise (Exception latitude_message), s2)
              | Ok false =>
                  match out_of_range lon 180 with
                  | Raise e => (Raise e, s2)
                  | Ok true => (Raise (Exception longitude_message), s2)
                  | Ok false => (Ok tt, set_coordinates lat lon s2)
                  end
              end
          end
      end
  end.

(** [n] calls in a row; a call that raises ends the run. *)
Fixpoint geocode_times (n : nat) : M St unit :=
  match n with
  | O => mret tt
  | S n' => _ ← geocode; geocode_times n'
  end.

(** The records a program can hold: a freshly constructed one, and what
    [geocode] leaves behind, whether it returned or raised. *)
Inductive reachable : St → Prop :=
| reach_init street city state country zipcode tr :
    reachable {| self := __init__ street city state country zipcode;
                 trace := tr |}
| reach_geocode s : reachable s → reachable (geocode s).2.

End WithNetwork.

(** A record is resolved once its metadata is not empty: the test
    [if not self.__info] that [geocode] itself applies. *)
Definition resolved (s : St) : Prop :=
  ∃ v, self s !! __info = Some v ∧ truthy v = true.

(** [v] is a number below [-bound] or above [bound]. *)
Definition outside (v : value) (bound : Z) : Prop :=
  ∃ x, as_number v = Some x ∧
       (num_lt x (of_Z (- bound)) = true ∨ num_lt (of_Z bound) x = true).

(** A stored coordinate is the NaN of the constructor or lies within its
    bound. *)
Definition coord_ok (v : value) (bound : Z) : Prop :=
  v = VNum NaN ∨ in_range v bound = true.

(** What holds of every record a program can hold. *)
Record inv (s : St) : Prop := {
  inv_single_underscore : self s !! _info = None;
  inv_attributes : ∃ vi vlat vlon,
    self s !! __info = Some vi ∧
    self s !! __latitude = Some vlat ∧
    self s !! __longitude = Some vlon ∧
    (truthy vi = false → vlat = VNum NaN ∧ vlon = VNum NaN) ∧
    coord_ok vlat 90 ∧ coord_ok vlon 180
}.

End Address.

(** * DistanceMatrix.py *)

Module DistanceMatrix.

(** A formatted string literal before its fields are rendered:
    [f"a {x} b"] is [[Lit "a "; Fmt x; Lit " b"]]. *)
Inductive piece :=
| Lit (s : string)
| Fmt (v : value).

(** The state: the class attributes of [DistanceMatrix], the requests sent
    to the routing service so far and the lines printed so far.  The class
    keeps the caller's list itself in [__last_requested] and never mutates
    it.  Here lists are values, which is what one call sees; module
    [ByReference] below keeps the list objects in a heap and
    [__last_requested] as a reference, for what a caller that changes its
    list between two calls sees. *)
Record St := {
  __response : value;
  __last_requested : list string;
  __number_of_requests_saved : nat;
  __number_of_requests_made : nat;
  trace : list request;
  stdout : list (list piece)
}.

(** The class as the module is loaded. *)
Definition initial : St :=
  {| __response := VDict [];
     __last_requested := [];
     __number_of_requests_saved := 0;
     __number_of_requests_made := 0;
     trace := [];
     stdout := [] |}.

Definition base_url : string :=
  "https://dev.virtualearth.net/REST/v1/Routes/DistanceMatrix?".

Definition get {A} (f : St → A) : M St A := λ s, (Ok (f s), s).

Definition set_response (v : value) : M St unit := λ s,
  (Ok tt, {| __response := v;
             __last_requested := __last_requested s;
             __number_of_requests_saved := __number_of_requests_saved s;
             __number_of_requests_made := __number_of_requests_made s;
             trace := trace s;
             stdout := stdout s |}).

Definition set_last_requested (l : list string) : M St unit := λ s,
  (Ok tt, {| __response := __response s;
             __last_requested := l;
             __number_of_requests_saved := __number_of_requests_saved s;
             __number_of_requests_made := __number_of_requests_made s;
             trace := trace s;
             stdout := stdout s |}).

Definition set_number_of_requests_saved (n : nat) : M St unit := λ s,
  (Ok tt, {| __response := __response s;
             __last_requested := __last_requested s;
             __number_of_requests_saved := n;
             __number_of_requests_made := __number_of_requests_made s;
             trace := trace s;
             stdout := stdout s |}).

Definition set_number_of_requests_made (n : nat) : M St unit := λ s,
  (Ok tt, {| __response := __response s;
             __last_requested := __last_requested s;
             __number_of_requests_saved := __number_of_requests_saved s;
             __number_of_requests_made := n;
             trace := trace s;
             stdout := stdout s |}).

(** [print(f"...")] *)
Definition print (line : list piece) : M St unit := λ s,
  (Ok tt, {| __response := __response s;
             __last_requested := __last_requested s;
             __number_of_requests_saved := __number_of_requests_saved s;
             __number_of_requests_made := __number_of_requests_made s;
             trace := trace s;
             stdout := stdout s ++ [line] |}).

(** [len(set(list1) - set(list2)) == 0 and len(set(list2) - set(list1)) == 0] *)
Definition __identical_list (list1 list2 : list string) : bool :=
  let set1 : gset string := list_to_set list1 in
  let set2 : gset string := list_to_set list2 in
  bool_decide (size (set1 ∖ set2) = 0) && bool_decide (size (set2 ∖ set1) = 0).

Definition keys_of_interest : list string :=
  ["travelDistance"; "travelDuration"].

(** [{key : item[key] for key in keys}] *)
Fixpoint dict_comprehension (keys : list string) (item : value)
  : outcome (list (string * value)) :=
  match keys with
  | [] => Ok []
  | key :: keys' =>
      v ← py_getitem_str item key;
      rest ← dict_comprehension keys' item;
      Ok ((key, v) :: rest)
  end.

(** [a % b] on non-negative integers *)
Definition py_mod (a b : nat) : outcome nat :=
  if Nat.eqb b 0 then Raise ZeroDivisionError else Ok (a mod b).

(** The body of the [for counter, item in enumerate(...)] loop, run over the
    items that are left; [n] is [len(geocodes)]. *)
Fixpoint build_loop (n : nat) (items : list value) (counter : nat)
    (row : list value) (matrix : list (list value))
  : outcome (list (list value)) :=
  match items with
  | [] => Ok matrix
  | item :: items' =>
      result ← dict_comprehension keys_of_interest item;
      let row := row ++ [VDict result] in
      r ← py_mod (counter + 1) n;
      if Nat.eqb r 0
      then build_loop n items' (S counter) [] (matrix ++ [row])
      else build_loop n items' (S counter) row matrix
  end.

(** [response["resourceSets"][0]['resources'][0]['results']] *)
Definition results_of (response : value) : outcome value :=
  sets ← py_getitem_str response "resourceSets";
  set0 ← py_getitem_int sets 0;
  resources ← py_getitem_str set0 "resources";
  resource0 ← py_getitem_int resources 0;
  py_getitem_str resource0 "results".

Definition __build_matrix (geocodes : list string) (response : value)
  : M St (list (list value)) :=
  code ← lift (py_getitem_str response "statusCode");
  if py_eq_int code 200 then
    results ← lift (results_of response);
    items ← lift (py_iter results);
    lift (build_loop (length geocodes) items 0 [] [])
  else
    code ← lift (py_getitem_str response "statusCode");
    description ← lift (py_getitem_str response "statusDescription");
    _ ← print [Lit "Execution stopped with HTTP code "; Fmt code;
               Lit " "; Fmt description];
    mret [].

Section WithNetwork.

Variable net : Network.

(** [requests.get(url, params=parameters).json()] *)
Definition requests_get_json (r : request) : M St value := λ s,
  (answer (net (trace s) r),
   {| __response := __response s;
      __last_requested := __last_requested s;
      __number_of_requests_saved := __number_of_requests_saved s;
      __number_of_requests_made := __number_of_requests_made s;
      trace := trace s ++ [r];
      stdout := stdout s |}).

(** The request [__request_matrix] sends for [geocodes]. *)
Definition matrix_request (geocodes : list string) (api_key travelMode : string)
  : request :=
  {| url := base_url;
     params := [("origins", VStr (String.concat "; " geocodes));
                ("destinations", VStr (String.concat "; " geocodes));
                ("travelMode", VStr travelMode);
                ("key", VStr api_key)] |}.

(** [len(r) == 0 or r['statusCode'] != 200] *)
Definition condition1_of (r : value) : outcome bool :=
  n ← py_len r;
  if Nat.eqb n 0 then Ok true
  else code ← py_getitem_str r "statusCode"; Ok (negb (py_eq_int code 200)).

Definition __request_matrix (geocodes : list string)
    (api_key travelMode : string) : M St value :=
  made ← get __number_of_requests_made;
  _ ← set_number_of_requests_made (made + 1);
  cached ← get __response;
  condition1 ← lift (condition1_of cached);
  last ← get __last_requested;
  let condition2 := negb (__identical_list last geocodes) in
  _ ← (if condition1 || condition2 then
         _ ← set_last_requested geocodes;
         body ← requests_get_json (matrix_request geocodes api_key travelMode);
         set_response body
       else
         saved ← get __number_of_requests_saved;
         set_number_of_requests_saved (saved + 1));
  get __response.

(** [[x[key] for x in row]] *)
Fixpoint project (key : string) (row : list value) : outcome (list value) :=
  match row with
  | [] => Ok []
  | x :: row' =>
      v ← py_getitem_str x key;
      rest ← project key row';
      Ok (v :: rest)
  end.

(** The [for row in grid] loop of [get_matrix]. *)
Fixpoint project_rows (key : string) (grid : list (list value))
    (matrix : list (list value)) : outcome (list (list value)) :=
  match grid with
  | [] => Ok matrix
  | row :: grid' =>
      result ← project key row;
      project_rows key grid' (matrix ++ [result])
  end.

(** [key in ["travelDistance", "travelDuration"]] *)
Definition recognized (key : string) : bool :=
  String.eqb key "travelDistance" || String.eqb key "travelDuration".

Definition get_matrix (geocodes : list string) (api_key key travelMode : string)
  : M St (list (list value)) :=
  if negb (recognized key) then mret [] else
  response ← __request_matrix geocodes api_key travelMode;
  grid ← __build_matrix geocodes response;
  lift (project_rows key grid []).

End WithNetwork.

(** *** Vocabulary for the statements *)

(** [item[key]], or [None] where the subscript would raise. *)
Definition field (key : string) (item : value) : value :=
  match py_getitem_str item key with
  | Ok v => v
  | Raise _ => VNone
  end.

(** An entry of the flat result list that carries both fields. *)
Definition well_formed_entry (item : value) : Prop :=
  (∃ v, py_getitem_str item "travelDistance" = Ok v) ∧
  (∃ v, py_getitem_str item "travelDuration" = Ok v).

(** The dict the loop keeps of a well-formed entry. *)
Definition summary (item : value) : value :=
  VDict [("travelDistance", field "travelDistance" item);
         ("travelDuration", field "travelDuration" item)].

(** [r] consecutive runs of length [n]. *)
Fixpoint rows_of (r n : nat) (cells : list value) : list (list value) :=
  match r with
  | O => []
  | S r' => take n cells :: rows_of r' n (drop n cells)
  end.

(** The three reasons for a new request. *)
Definition no_prior_response (s : St) : Prop :=
  py_len (__response s) = Ok 0.

Definition prior_status_not_200 (s : St) : Prop :=
  ∃ code, py_getitem_str (__response s) "statusCode" = Ok code ∧
          py_eq_int code 200 = false.

Definition coordinates_differ (s : St) (geocodes : list string) : Prop :=
  (list_to_set (__last_requested s) : gset string) ≠ list_to_set geocodes.

(** The cached response is the empty one the class starts with, or it
    carries a status code. *)
Definition cache_well_formed (s : St) : Prop :=
  no_prior_response s ∨
  ∃ code, py_getitem_str (__response s) "statusCode" = Ok code.

(** Two states that differ at most in what has been printed. *)
Definition same_cache (s1 s2 : St) : Prop :=
  __response s1 = __response s2 ∧
  __last_requested s1 = __last_requested s2 ∧
  __number_of_requests_saved s1 = __number_of_requests_saved s2 ∧
  __number_of_requests_made s1 = __number_of_requests_made s2 ∧
  trace s1 = trace s2.

End DistanceMatrix.

(** * Concrete services and states, for the statements at concrete inputs *)

Module Fixtures.

Definition geocoder_body (lon lat : value) : value :=
  VDict [("type", VStr "FeatureCollection");
         ("features",
          VList [VDict [("type", VStr "Feature");
                        ("geometry",
                         VDict [("type", VStr "Point");
                                ("coordinates", VList [lon; lat])])]])].

Definition boston : Network :=
  λ _ _, Some (geocoder_body (VNum (Fin (-7106 # 100))) (VNum (Fin (4236 # 100)))).

Definition north_of_the_pole : Network :=
  λ _ _, Some (geocoder_body (VNum (of_Z 10)) (VNum (of_Z 91))).

(** A body whose longitude is the NaN that [json] reads from the literal
    [NaN]. *)
Definition nan_longitude : Network :=
  λ _ _, Some (geocoder_body (VNum NaN) (VNum (of_Z 45))).

Definition fresh : Address.St :=
  {| Address.self := Address.__init__ "1 Main St" "Boston" "MA" "USA" "02101";
     Address.trace := [] |}.

Definition route_entry (origin destination : Z) (distance duration : Q)
  : value :=
  VDict [("destinationIndex", VNum (of_Z destination));
         ("originIndex", VNum (of_Z origin));
         ("travelDistance", VNum (Fin distance));
         ("travelDuration", VNum (Fin duration))].

Definition routes_body (entries : list value) : value :=
  VDict [("statusCode", VNum (of_Z 200));
         ("statusDescription", VStr "OK");
         ("resourceSets",
          VList [VDict [("resources",
                         VList [VDict [("results", VList entries)]])]])].

Definition two_by_two_entries : list value :=
  [route_entry 0 0 0 0; route_entry 0 1 (53 # 10) 7;
   route_entry 1 0 (61 # 10) 8; route_entry 1 1 0 0].

Definition two_by_two : Network := λ _ _, Some (routes_body two_by_two_entries).

Definition unauthorized_body : value :=
  VDict [("statusCode", VNum (of_Z 401));
         ("statusDescription", VStr "Unauthorized")].

Definition unauthorized : Network := λ _ _, Some unauthorized_body.

(** The class after one successful call for ["A", "B"]. *)
Definition warm : DistanceMatrix.St :=
  (DistanceMatrix.get_matrix two_by_two ["A"; "B"] "key" "travelDistance"
     "driving" DistanceMatrix.initial).2.

End Fixtures.

(** * Sequences of calls on the distance-matrix class *)

Module Session.
Import DistanceMatrix.

Section WithNetwork.

Variable net : Network.

(** [later s s']: the class is in state [s'] after some calls of
    [get_matrix], with any arguments, that started in state [s]. *)
Inductive later (s : St) : St → Prop :=
| later_refl : later s s
| later_call s' geocodes api_key key travelMode :
    later s s' →
    later s (get_matrix net geocodes api_key key travelMode s').2.

End WithNetwork.

(** The state after [__number_of_requests_made += 1]. *)
Definition counted (s : St) : St :=
  {| __response := __response s;
     __last_requested := __last_requested s;
     __number_of_requests_saved := __number_of_requests_saved s;
     __number_of_requests_made := __number_of_requests_made s + 1;
     trace := trace s;
     stdout := stdout s |}.

(** The state after a call that was answered from the cache. *)
Definition served_from_cache (s : St) : St :=
  {| __response := __response s;
     __last_requested := __last_requested s;
     __number_of_requests_saved := __number_of_requests_saved s + 1;
     __number_of_requests_made := __number_of_requests_made s + 1;
     trace := trace s;
     stdout := stdout s |}.

(** The cached response carries status code 200. *)
Definition cached_success (s : St) : Prop :=
  ∃ code, py_getitem_str (__response s) "statusCode" = Ok code ∧
          py_eq_int code 200 = true.

End Session.

(** * The distance-matrix class with list objects held by reference

    [DistanceMatrix.__last_requested = geocodes] (line 148) makes the class
    attribute refer to the caller's list object; it does not copy it.  Here
    the list objects of the program live in a heap, a call is given the
    location of its list, and the class remembers a location.  The other
    class attributes, the log and the output are those of
    [DistanceMatrix.St]; its field [__last_requested] records the contents
    the list had when it was assigned and is never read by the code
    below. *)

Module ByReference.

Record St := {
  lists : gmap nat (list string);
  held : nat;
  cls : DistanceMatrix.St
}.

(** The class as the module is loaded: [__last_requested = []] is a list
    object of its own. *)
Definition initial : St :=
  {| lists := {[0 := []]}; held := 0; cls := DistanceMatrix.initial |}.

(** A statement that concerns the other class attributes only. *)
Definition on_class {A} (m : M DistanceMatrix.St A) : M St A := λ s,
  let r := m (cls s) in
  (r.1, {| lists := lists s; held := held s; cls := r.2 |}).

(** The contents of the list object at [l]; a location that holds no list
    is an argument of the wrong type. *)
Definition contents (l : nat) : M St (list string) := λ s,
  match lists s !! l with
  | Some geocodes => (Ok geocodes, s)
  | None => (Raise TypeError, s)
  end.

Definition get_held : M St nat := λ s, (Ok (held s), s).

Definition set_held (l : nat) : M St unit := λ s,
  (Ok tt, {| lists := lists s; held := l; cls := cls s |}).

(** What the caller does to a list of its own outside the class: create
    it, or change it in place ([append], [remove], item assignment). *)
Definition change_list (l : nat) (geocodes : list string) (s : St) : St :=
  {| lists := <[l := geocodes]> (lists s); held := held s; cls := cls s |}.

Section WithNetwork.

Variable net : Network.

Definition __request_matrix (geocodes : nat) (api_key travelMode : string)
  : M St value :=
  made ← on_class (DistanceMatrix.get DistanceMatrix.__number_of_requests_made);
  _ ← on_class (DistanceMatrix.set_number_of_requests_made (made + 1));
  cached ← on_class (DistanceMatrix.get DistanceMatrix.__response);
  condition1 ← lift (DistanceMatrix.condition1_of cached);
  last ← get_held;
  list1 ← contents last;
  list2 ← contents geocodes;
  let condition2 := negb (DistanceMatrix.__identical_list list1 list2) in
  _ ← (if condition1 || condition2 then
         _ ← set_held geocodes;
         _ ← on_class (DistanceMatrix.set_last_requested list2);
         body ← on_class (DistanceMatrix.requests_get_json net
                            (DistanceMatrix.matrix_request list2 api_key
                               travelMode));
         on_class (DistanceMatrix.set_response body)
       else
         saved ← on_class (DistanceMatrix.get
                             DistanceMatrix.__number_of_requests_saved);
         on_class (DistanceMatrix.set_number_of_requests_saved (saved + 1)));
  on_class (DistanceMatrix.get DistanceMatrix.__response).

Definition get_matrix (geocodes : nat) (api_key key travelMode : string)
  : M St (list (list value)) :=
  if negb (DistanceMatrix.recognized key) then mret [] else
  response ← __request_matrix geocodes api_key travelMode;
  list ← contents geocodes;
  grid ← on_class (DistanceMatrix.__build_matrix list response);
  lift (DistanceMatrix.project_rows key grid []).

End WithNetwork.

(** The service answered with a body of status code 200. *)
Definition success_body (body : value) : Prop :=
  ∃ code, py_getitem_str body "statusCode" = Ok code ∧
          py_eq_int code 200 = true.

(** The service answered with a body that carries a status code other than
    200. *)
Definition failure_body (body : value) : Prop :=
  ∃ code, py_getitem_str body "statusCode" = Ok code ∧
          py_eq_int code 200 = false.

(** No list has been changed since the class took hold of its list: the
    held object still has the contents it was assigned with. *)
Definition untouched (s : St) : Prop :=
  lists s !! held s = Some (DistanceMatrix.__last_requested (cls s)).

End ByReference.

(** * Vocabulary for statements about one record *)

Module Resolve.
Import Address.

(** The five fields a record was built with. *)
Definition built_with (street city state country zipcode : string) (s : St)
  : Prop :=
  self s !! __street = Some (VStr street) ∧
  self s !! __city = Some (VStr city) ∧
  self s !! __state = Some (VStr state) ∧
  self s !! __country = Some (VStr country) ∧
  self s !! __zipcode = Some (VStr zipcode).

(** The request that carries the five fields. *)
Definition search_request (street city state country zipcode : string)
  : request :=
  {| url := search_url;
     params := [("street", VStr street); ("city", VStr city);
                ("state", VStr state); ("country", VStr country);
                ("postalcode", VStr zipcode);
                ("format", VStr "geocodejson");
                ("polygon_svg", VNum (of_Z 1))] |}.

(** The metadata of the record is empty: [geocode] will call the service. *)
Definition unresolved (s : St) : Prop :=
  ∃ old, self s !! __info = Some old ∧ truthy old = false.

End Resolve.

(** * Address.__str__ and Address.get_geocodes *)

Module AddressList.

(** Several records, held by reference: the list that [get_geocodes] is
    given is a list of locations in a heap of instance dictionaries, so the
    same record may be listed twice. *)
Record St := { heap : gmap nat (gmap string value); trace : list request }.

(** A method of the record at [address], run on the heap.  An element that
    is no record has no such method. *)
Definition on {A} (address : nat) (method : M Address.St A) : M St A := λ s,
  match heap s !! address with
  | None => (Raise AttributeError, s)
  | Some o =>
      let r := method {| Address.self := o; Address.trace := trace s |} in
      (r.1, {| heap := <[address := Address.self r.2]> (heap s);
               trace := Address.trace r.2 |})
  end.

(** The record at [address] together with the log, as a method sees it. *)
Definition view (address : nat) (s : St) : option Address.St :=
  o ← heap s !! address;
  Some {| Address.self := o; Address.trace := trace s |}.

Section WithStr.

(** The built-in [str], which the repository does not define. *)
Variable py_str : value → string.

(** ['{street}, {city}, {state}, {country}, {zipcode}'.format(...)] *)
Definition __str__ : M Address.St string :=
  street ← Address.getattr Address.__street;
  city ← Address.getattr Address.__city;
  state ← Address.getattr Address.__state;
  country ← Address.getattr Address.__country;
  zipcode ← Address.getattr Address.__zipcode;
  mret (py_str street +:+ ", " +:+ py_str city +:+ ", " +:+ py_str state
        +:+ ", " +:+ py_str country +:+ ", " +:+ py_str zipcode).

(** ['{latitude}, {longitude}'.format(latitude=..., longitude=...)] *)
Definition coordinate_text (latitude longitude : value) : string :=
  py_str latitude +:+ ", " +:+ py_str longitude.

Variable net : Network.

(** The [for address in addresses] loop of [get_geocodes]. *)
Fixpoint get_geocodes_loop (addresses : list nat) (geocodes : list string)
  : M St (list string) :=
  match addresses with
  | [] => mret geocodes
  | address :: addresses' =>
      _ ← on address (Address.geocode net);
      latitude ← on address Address.latitude;
      longitude ← on address Address.longitude;
      let result := coordinate_text latitude longitude in
      get_geocodes_loop addresses' (geocodes ++ [result])
  end.

Definition get_geocodes (addresses : list nat) : M St (list string) :=
  get_geocodes_loop addresses [].

End WithStr.

(** The record at [address] counts as resolved for [geocode]: its metadata
    is not empty. *)
Definition has_metadata (address : nat) (s : St) : Prop :=
  ∃ o v, heap s !! address = Some o ∧
         o !! Address.__info = Some v ∧ truthy v = true.

(** The record at [address] passes for resolved although its coordinates
    are still the NaN it was built with: the state a call of [geocode] that
    raised after storing the metadata leaves behind. *)
Definition kept_without_coordinates (address : nat) (s : St) : Prop :=
  ∃ o v, heap s !! address = Some o ∧
         o !! Address.__info = Some v ∧ truthy v = true ∧
         o !! Address.__latitude = Some (VNum NaN) ∧
         o !! Address.__longitude = Some (VNum NaN).

End AddressList.

(** * More concrete services *)

Module MoreFixtures.

(** Five entries where two coordinates call for four. *)
Definition five_entries : list value :=
  Fixtures.two_by_two_entries ++ [Fixtures.route_entry 2 0 9 9].

Definition one_too_many : Network := λ _ _, Some (Fixtures.routes_body five_entries).

(** The second entry has lost its duration. *)
Definition no_duration_entries : list value :=
  [Fixtures.route_entry 0 0 0 0;
   VDict [("travelDistance", VNum (Fin (53 # 10)))];
   Fixtures.route_entry 1 0 (61 # 10) 8;
   Fixtures.route_entry 1 1 0 0].

Definition no_duration : Network :=
  λ _ _, Some (Fixtures.routes_body no_duration_entries).

(** A body without a status code, as a gateway in front of the service
    might send. *)
Definition gateway_error : Network :=
  λ _ _, Some (VDict [("message", VStr "Too Many Requests")]).

(** A service that is down for the second request and up otherwise. *)
Definition down_once : Network :=
  λ tr _, if Nat.eqb (length tr) 1 then None
          else Some (Fixtures.routes_body Fixtures.two_by_two_entries).

(** A stand-in for the built-in [str]: strings as they are, NaN as Python
    prints it, anything else as a question mark. *)
Definition str_stub (v : value) : string :=
  match v with
  | VStr s => s
  | VNum NaN => "nan"
  | _ => "?"
  end.

(** No match: the service answers with an empty list of features. *)
Definition not_found_body : value :=
  VDict [("type", VStr "FeatureCollection"); ("features", VList [])].

Definition not_found : Network := λ _ _, Some not_found_body.

Definition offline : Network := λ _ _, None.

(** The first address is found, the second is not. *)
Definition second_not_found : Network :=
  λ tr _, if Nat.eqb (length tr) 0
          then Some (Fixtures.geocoder_body (VNum (Fin (-7106 # 100)))
                       (VNum (Fin (4236 # 100))))
          else Some not_found_body.

(** Two records, the first listed twice. *)
Definition book : AddressList.St :=
  {| AddressList.heap :=
       <[1 := Address.__init__ "10 High St" "Salem" "MA" "USA" "01970"]>
       (<[0 := Address.__init__ "1 Main St" "Boston" "MA" "USA" "02101"]> ∅);
     AddressList.trace := [] |}.

(** A caller that holds the list ["A", "B"] at location 1. *)
Definition caller : ByReference.St :=
  ByReference.change_list 1 ["A"; "B"] ByReference.initial.

(** The same caller with a second list, the same coordinates in another
    order, at location 2. *)
Definition caller_with_two_lists : ByReference.St :=
  ByReference.change_list 2 ["B"; "A"] caller.

End MoreFixtures.


(** * Facts about Address.py *)

Module AddressFacts.
Import Address.

(** ** Private names *)

Example mangle_private : mangle "Address" "__info" = "_Address__info".
Proof. reflexivity. Qed.

Example mangle_single_underscore : mangle "Address" "_info" = "_info".
Proof. reflexivity. Qed.

Example mangle_dunder : mangle "Address" "__init__" = "__init__".
Proof. reflexivity. Qed.

(** ** Resolving an address *)

Section Geocode.
Variable net : Network.

Lemma geocode_unfold s : geocode net s = geocode_steps net s.
Proof.
  unfold geocode, geocode_steps, getattr, mbind, M_bind.
  destruct (self s !! __info) as [old|]; [|done].
  destruct (truthy old); [done|]. simpl.
  destruct (get_geocode_json net s) as [[body|e] s1]; [|done].
  unfold setattr at 1. simpl. rewrite lookup_insert_eq.
  unfold lift at 1.
  destruct (coordinate_pair body) as [[lon lat]|e]; [|done].
  unfold out_of_range, lift, or_else, raise_if, mbind, outcome_bind, mret, M_ret, raise.
  change (- (90))%Z with (-90)%Z. change (- (180))%Z with (-180)%Z.
  destruct (py_lt_int lat (-90)) as [[]|]; try done;
  destruct (py_gt_int lat 90) as [[]|]; try done;
  destruct (py_lt_int lon (-180)) as [[]|]; try done;
  destruct (py_gt_int lon 180) as [[]|]; done.
Qed.

(** The external call leaves the record alone and logs at most one request;
    the only exceptions it lets out are a missing attribute and a failure
    of the service. *)
Lemma get_geocode_json_effect s r s1 :
  get_geocode_json net s = (r, s1) →
  self s1 = self s ∧
  (∃ reqs, trace s1 = trace s ++ reqs ∧ length reqs ≤ 1) ∧
  (∀ msg, r ≠ Raise (Exception msg)).
Proof.
  unfold get_geocode_json, street, city, state, country, zipcode, getattr,
    requests_get_json, mbind, M_bind.
  repeat (case_match; simplify_eq);
    intros; simplify_eq; simpl;
    (split; [done|split; [|]]);
    try (by exists []; rewrite app_nil_r; simpl; auto);
    try (by eexists [_]; simpl; auto);
    try done.
  all: unfold answer in *; intros msg; by case_match.
Qed.

Lemma geocode_noop s v :
  self s !! __info = Some v → truthy v = true → geocode net s = (Ok tt, s).
Proof.
  intros Hv Ht. rewrite geocode_unfold. unfold geocode_steps.
  by rewrite Hv, Ht.
Qed.

Lemma geocode_trace s r s1 :
  geocode net s = (r, s1) →
  ∃ reqs, trace s1 = trace s ++ reqs ∧ length reqs ≤ 1.
Proof.
  rewrite geocode_unfold. unfold geocode_steps.
  destruct (get_geocode_json net s) as [r' s'] eqn:Hget.
  apply get_geocode_json_effect in Hget as (_ & Htr & _).
  assert (∃ reqs, trace s = trace s ++ reqs ∧ length reqs ≤ 1) as Hnil
    by (exists []; rewrite app_nil_r; simpl; auto with arith).
  repeat (case_match; simplify_eq); intros; simplify_eq; simpl; done.
Qed.

(** On a number the two comparisons do not raise. *)
Lemma out_of_range_number v bound :
  is_Some (as_number v) → ∃ b, out_of_range v bound = Ok b.
Proof.
  intros [x Hx].
  unfold out_of_range, py_lt_int, py_gt_int, mbind, outcome_bind.
  rewrite Hx. case_match; eauto.
Qed.

(** A coordinate that passed both comparisons is NaN or within the bound. *)
Lemma out_of_range_false v bound :
  out_of_range v bound = Ok false → v = VNum NaN ∨ in_range v bound = true.
Proof.
  unfold out_of_range, in_range, py_lt_int, py_gt_int, mbind, outcome_bind.
  destruct (as_number v) as [x|] eqn:Hx; [|done].
  destruct (num_lt x (of_Z (- bound))) eqn:Hlo; [done|].
  intros [= Hhi].
  destruct x as [|[]|q]; simpl in *; try done.
  - left. destruct v as [|b| | | |]; simpl in Hx; by simplify_eq.
  - right. unfold Qltb in *.
    apply negb_false_iff in Hlo, Hhi. by rewrite Hlo, Hhi.
Qed.

Lemma inv_init street city state country zipcode tr :
  inv {| self := __init__ street city state country zipcode; trace := tr |}.
Proof.
  split; [done|].
  exists (VDict []), (VNum NaN), (VNum NaN).
  repeat split; try done; by left.
Qed.

Lemma coordinate_pair_truthy body p :
  coordinate_pair body = Ok p → truthy body = true.
Proof.
  unfold coordinate_pair, mbind, outcome_bind, py_getitem_str.
  destruct body as [| | | | |d]; try done.
  by destruct d.
Qed.

Lemma inv_geocode s : inv s → inv (geocode net s).2.
Proof.
  intros [Hno (vi & vlat & vlon & Hi & Hlat & Hlon & Hnan & Hoklat & Hoklon)].
  rewrite geocode_unfold. unfold geocode_steps. rewrite Hi.
  destruct (truthy vi) eqn:Ht.
  { simpl. split; [done|]. exists vi, vlat, vlon. by rewrite Ht. }
  destruct (Hnan eq_refl) as [-> ->].
  destruct (get_geocode_json net s) as [[body|e] s1] eqn:Hget;
    apply get_geocode_json_effect in Hget as (Hself & _ & _).
  2:{ simpl. split; [by rewrite Hself|].
      exists vi, (VNum NaN), (VNum NaN). by rewrite Hself. }
  assert (inv (set_info body s1)) as Hinv2.
  { split; simpl; rewrite Hself; [by rewrite lookup_insert_ne|].
    exists body, (VNum NaN), (VNum NaN).
    rewrite lookup_insert_eq, !lookup_insert_ne by done.
    repeat split; try done; by left. }
  destruct (coordinate_pair body) as [[lon lat]|e] eqn:Hpair; [|done].
  destruct (out_of_range lat 90) as [[]|] eqn:Hrlat; try done.
  destruct (out_of_range lon 180) as [[]|] eqn:Hrlon; try done.
  apply out_of_range_false in Hrlat, Hrlon. fold (coord_ok lat 90) in Hrlat.
  fold (coord_ok lon 180) in Hrlon.
  split; simpl; rewrite Hself.
  - by rewrite !lookup_insert_ne.
  - exists body, lat, lon.
    rewrite lookup_insert_eq.
    rewrite (lookup_insert_ne _ __longitude __latitude) by done.
    rewrite lookup_insert_eq.
    rewrite (lookup_insert_ne _ __longitude __info) by done.
    rewrite (lookup_insert_ne _ __latitude __info) by done.
    rewrite lookup_insert_eq.
    repeat split; try done.
    all: by rewrite (coordinate_pair_truthy _ _ Hpair) in *.
Qed.

Lemma reachable_inv s : reachable net s → inv s.
Proof.
  induction 1 as [|s _ IH]; [apply inv_init|by apply inv_geocode].
Qed.

Lemma geocode_times_noop s v n :
  self s !! __info = Some v → truthy v = true →
  geocode_times net n s = (Ok tt, s).
Proof.
  intros Hv Ht. induction n as [|n IH]; [done|].
  simpl. unfold mbind, M_bind. by rewrite (geocode_noop s v).
Qed.

(** The accessors other than [info] return the stored field and leave the
    record as it was. *)
Lemma accessors_return_fields street' city' state' country' zipcode' tr :
  let s := {| self := __init__ street' city' state' country' zipcode';
              trace := tr |} in
  street s = (Ok (VStr street'), s) ∧
  city s = (Ok (VStr city'), s) ∧
  state s = (Ok (VStr state'), s) ∧
  country s = (Ok (VStr country'), s) ∧
  zipcode s = (Ok (VStr zipcode'), s) ∧
  latitude s = (Ok (VNum NaN), s) ∧
  longitude s = (Ok (VNum NaN), s) ∧
  coordinates s = (Ok (VNum NaN, VNum NaN), s).
Proof. by repeat split. Qed.

(** C4 (the code departs from the claim): [info] reads [self._info], an
    attribute that neither the constructor nor [geocode] ever sets, since
    both write the private name [self.__info]; on every record a program can
    hold, before or after a resolve, the accessor raises [AttributeError]
    instead of returning the stored metadata. *)
Theorem info_raises_AttributeError s :
  reachable net s → info s = (Raise AttributeError, s).
Proof.
  intros Hs. apply reachable_inv in Hs as [Hno _].
  unfold info, getattr. by rewrite Hno.
Qed.

(** A call that returns leaves the metadata non-empty: either it was so
    before, or the call has just stored a body it could read a pair from. *)
Lemma geocode_returns_with_metadata s s1 :
  geocode net s = (Ok tt, s1) →
  ∃ v, self s1 !! __info = Some v ∧ truthy v = true.
Proof.
  rewrite geocode_unfold. unfold geocode_steps. intros Hsteps.
  destruct (self s !! __info) as [old|] eqn:Hold; [|done].
  destruct (truthy old) eqn:Ht; [simplify_eq; eauto|].
  destruct (get_geocode_json net s) as [[body|e] s'] eqn:Hget; [|done].
  destruct (coordinate_pair body) as [[lon lat]|e] eqn:Hpair; [|done].
  apply coordinate_pair_truthy in Hpair.
  repeat (case_match; simplify_eq).
  exists body. split; [|done].
  simpl. by rewrite !lookup_insert_ne, lookup_insert_eq by done.
Qed.

(** Two calls in a row send at most one request, however the first ends. *)
Lemma geocode_twice_trace s :
  ∃ reqs,
    trace ((_ ← geocode net; geocode net) s).2 = trace s ++ reqs ∧
    length reqs ≤ 1.
Proof.
  unfold mbind, M_bind.
  destruct (geocode net s) as [[[]|e] s1] eqn:Hfirst.
  - destruct (geocode_returns_with_metadata _ _ Hfirst) as (v & Hv & Ht).
    rewrite (geocode_noop _ _ Hv Ht). by apply geocode_trace in Hfirst.
  - simpl. by apply geocode_trace in Hfirst.
Qed.

(** C5: when a call of [geocode] returns, a second call on the same record
    returns too and changes nothing, neither latitude, longitude and
    metadata nor the log of external calls; both calls together perform at
    most one external call. *)
Theorem geocode_idempotent s s1 :
  geocode net s = (Ok tt, s1) →
  geocode net s1 = (Ok tt, s1) ∧
  (_ ← geocode net; geocode net) s = (Ok tt, s1) ∧
  ∃ reqs, trace s1 = trace s ++ reqs ∧ length reqs ≤ 1.
Proof.
  intros Hfirst.
  destruct (geocode_returns_with_metadata _ _ Hfirst) as (v & Hv & Ht).
  pose proof (geocode_noop _ _ Hv Ht) as Hsecond.
  split_and!; [done| |by apply geocode_trace in Hfirst].
  unfold mbind, M_bind. by rewrite Hfirst.
Qed.

Lemma outside_out_of_range v bound :
  outside v bound ↔ out_of_range v bound = Ok true.
Proof.
  unfold outside, out_of_range, py_lt_int, py_gt_int, mbind, outcome_bind.
  destruct (as_number v) as [x|]; [|split; [by intros (? & ? & _)|done]].
  destruct (num_lt x (of_Z (- bound))) eqn:Hlo;
    [split; [done|intros _; eauto]|].
  split.
  - intros (y & [= <-] & [?|Hhi]); [congruence|]. by rewrite Hhi.
  - intros [= Hhi]. eauto.
Qed.

(** A coordinate that is NaN or within the bound passes both
    comparisons. *)
Lemma coord_ok_passes v bound :
  coord_ok v bound → out_of_range v bound = Ok false.
Proof.
  intros [->|Hin]; [done|].
  unfold in_range in Hin.
  unfold out_of_range, py_lt_int, py_gt_int, mbind, outcome_bind.
  destruct (as_number v) as [x|]; [|done].
  apply andb_true_iff in Hin as [Hlo Hhi].
  destruct x as [|[]|q]; simpl in *; try done.
  unfold Qltb. by rewrite Hlo, Hhi.
Qed.

(** X19: on a record with empty metadata, when the pair read from the
    response has a latitude that is a number below -90 or above 90, or such
    a latitude within its bound and a longitude that is a number below -180
    or above 180, [geocode] raises the illegal-argument exception and leaves
    latitude and longitude as they were; what a call that returns stores
    has passed both comparisons; and on every record a program can hold
    each stored coordinate is NaN or within its bound. *)
Theorem bounds_checked_before_storing s :
  reachable net s →
  (∀ old body s1 lon lat,
     self s !! __info = Some old → truthy old = false →
     get_geocode_json net s = (Ok body, s1) →
     coordinate_pair body = Ok (lon, lat) →
     is_Some (as_number lat) →
     outside lat 90 ∨ outside lon 180 →
     ∃ msg s2,
       geocode net s = (Raise (Exception msg), s2) ∧
       (msg = latitude_message ∨ msg = longitude_message) ∧
       self s2 !! __latitude = self s !! __latitude ∧
       self s2 !! __longitude = self s !! __longitude) ∧
  (∀ old body s1 lon lat s2,
     self s !! __info = Some old → truthy old = false →
     get_geocode_json net s = (Ok body, s1) →
     coordinate_pair body = Ok (lon, lat) →
     geocode net s = (Ok tt, s2) →
     self s2 !! __latitude = Some lat ∧ self s2 !! __longitude = Some lon ∧
     ¬ outside lat 90 ∧ ¬ outside lon 180) ∧
  (∃ lat lon,
     self s !! __latitude = Some lat ∧ self s !! __longitude = Some lon ∧
     coord_ok lat 90 ∧ coord_ok lon 180).
Proof.
  intros Hs. split_and!.
  - intros old body s1 lon lat Hold Ht Hget Hpair Hnum Hout.
    rewrite !outside_out_of_range in Hout.
    rewrite geocode_unfold. unfold geocode_steps.
    rewrite Hold, Ht, Hget, Hpair.
    apply get_geocode_json_effect in Hget as (Hself & _ & _).
    destruct (out_of_range_number lat 90 Hnum) as [[] Hlat]; rewrite Hlat.
    + exists latitude_message, (set_info body s1). simpl. rewrite Hself.
      rewrite !lookup_insert_ne by done. auto.
    + destruct Hout as [Hout|Hout]; [congruence|]. rewrite Hout.
      exists longitude_message, (set_info body s1). simpl. rewrite Hself.
      rewrite !lookup_insert_ne by done. auto.
  - intros old body s1 lon lat s2 Hold Ht Hget Hpair.
    rewrite geocode_unfold. unfold geocode_steps.
    rewrite Hold, Ht, Hget, Hpair. rewrite !outside_out_of_range.
    destruct (out_of_range lat 90) as [[]|]; try done.
    destruct (out_of_range lon 180) as [[]|]; try done.
    intros [= <-]. simpl.
    by rewrite lookup_insert_ne, !lookup_insert_eq by done.
  - apply reachable_inv in Hs
      as [_ (vi & vlat & vlon & _ & Hvlat & Hvlon & _ & Hoklat & Hoklon)].
    by exists vlat, vlon.
Qed.

(** C6 (the code departs from the claim): NaN is neither below nor above
    a bound, so the two comparisons let it through.  On a record with empty
    metadata, when one coordinate of the pair read from the response is NaN
    and the other is NaN or within its bound, [geocode] returns without an
    exception, the record is resolved, both values are stored, and the
    stored pair does not satisfy -90 <= latitude <= 90 and
    -180 <= longitude <= 180. *)
Theorem nan_coordinate_is_stored s old body s1 lon lat :
  self s !! __info = Some old → truthy old = false →
  get_geocode_json net s = (Ok body, s1) →
  coordinate_pair body = Ok (lon, lat) →
  coord_ok lat 90 → coord_ok lon 180 →
  lat = VNum NaN ∨ lon = VNum NaN →
  ∃ s2,
    geocode net s = (Ok tt, s2) ∧
    resolved s2 ∧
    self s2 !! __latitude = Some lat ∧
    self s2 !! __longitude = Some lon ∧
    ¬ (in_range lat 90 = true ∧ in_range lon 180 = true).
Proof.
  intros Hold Ht Hget Hpair Hlat Hlon Hnan.
  exists (set_coordinates lat lon (set_info body s1)).
  split_and!.
  - rewrite geocode_unfold. unfold geocode_steps.
    by rewrite Hold, Ht, Hget, Hpair, (coord_ok_passes _ _ Hlat),
      (coord_ok_passes _ _ Hlon).
  - exists body. split.
    + simpl. by rewrite !lookup_insert_ne, lookup_insert_eq by done.
    + by apply coordinate_pair_truthy in Hpair.
  - simpl. by rewrite lookup_insert_ne, lookup_insert_eq by done.
  - simpl. by rewrite lookup_insert_eq.
  - intros [Hin_lat Hin_lon]. by destruct Hnan as [-> | ->].
Qed.

(** C10: when [geocode] raises the bounds exception, the metadata is
    already stored and non-empty while latitude and longitude are still
    NaN; from then on every call returns at once, without an external call
    and without a change to the record, so the coordinates stay NaN. *)
Theorem geocode_not_atomic s msg s1 :
  reachable net s →
  geocode net s = (Raise (Exception msg), s1) →
  (∃ v, self s1 !! __info = Some v ∧ truthy v = true) ∧
  self s1 !! __latitude = Some (VNum NaN) ∧
  self s1 !! __longitude = Some (VNum NaN) ∧
  ∀ n, geocode_times net n s1 = (Ok tt, s1).
Proof.
  intros Hs Hraise.
  apply reachable_inv in Hs
    as [_ (vi & vlat & vlon & Hi & Hlat & Hlon & Hnan & _ & _)].
  rewrite geocode_unfold in Hraise. unfold geocode_steps in Hraise.
  rewrite Hi in Hraise.
  destruct (truthy vi) eqn:Ht; [done|].
  destruct (Hnan eq_refl) as [-> ->].
  destruct (get_geocode_json net s) as [[body|e] s'] eqn:Hget.
  2:{ apply get_geocode_json_effect in Hget as (_ & _ & Hne).
      simplify_eq. by destruct (Hne msg). }
  apply get_geocode_json_effect in Hget as (Hself & _ & _).
  destruct (coordinate_pair body) as [[lon lat]|e] eqn:Hpair.
  2:{ simplify_eq. unfold coordinate_pair, py_getitem_str, py_getitem_int,
        py_iter, unpack2, mbind, outcome_bind in Hpair.
      repeat (case_match; simplify_eq). }
  apply coordinate_pair_truthy in Hpair.
  assert (s1 = set_info body s') as ->.
  { unfold out_of_range, py_lt_int, py_gt_int, mbind, outcome_bind in Hraise.
    repeat (case_match; simplify_eq); done. }
  assert (self (set_info body s') !! __info = Some body) as Hinfo
    by (simpl; by rewrite lookup_insert_eq).
  split; [by exists body|].
  simpl. rewrite Hself, !lookup_insert_ne by done.
  repeat split; try done.
  intros n. by apply (geocode_times_noop _ body).
Qed.

End Geocode.

(** At a fresh record and a service that answers with latitude 91, the
    call raises and nothing is stored. *)
Lemma bounds_checked_before_storing_witness :
  ∃ msg s2,
    geocode Fixtures.north_of_the_pole Fixtures.fresh
      = (Raise (Exception msg), s2) ∧
    (msg = latitude_message ∨ msg = longitude_message) ∧
    self s2 !! __latitude = self Fixtures.fresh !! __latitude ∧
    self s2 !! __longitude = self Fixtures.fresh !! __longitude.
Proof.
  destruct (bounds_checked_before_storing Fixtures.north_of_the_pole
              Fixtures.fresh (reach_init _ _ _ _ _ _ _)) as [Hraise _].
  apply (Hraise (VDict [])
           (Fixtures.geocoder_body (VNum (of_Z 10)) (VNum (of_Z 91)))
           (get_geocode_json Fixtures.north_of_the_pole Fixtures.fresh).2
           (VNum (of_Z 10)) (VNum (of_Z 91))).
  - vm_compute; reflexivity.
  - reflexivity.
  - vm_compute; reflexivity.
  - reflexivity.
  - by eexists.
  - left. eexists. split; [reflexivity|]. right. reflexivity.
Defined.

(** At a fresh record and a service that answers with longitude NaN and
    latitude 45, the call returns and the record is resolved with a
    longitude that is not within [-180, 180]. *)
Lemma nan_coordinate_is_stored_witness :
  ∃ s2,
    geocode Fixtures.nan_longitude Fixtures.fresh = (Ok tt, s2) ∧
    resolved s2 ∧
    self s2 !! __latitude = Some (VNum (of_Z 45)) ∧
    self s2 !! __longitude = Some (VNum NaN) ∧
    ¬ (in_range (VNum (of_Z 45)) 90 = true ∧
       in_range (VNum NaN) 180 = true).
Proof.
  apply (nan_coordinate_is_stored Fixtures.nan_longitude Fixtures.fresh
           (VDict [])
           (Fixtures.geocoder_body (VNum NaN) (VNum (of_Z 45)))
           (get_geocode_json Fixtures.nan_longitude Fixtures.fresh).2).
  - vm_compute; reflexivity.
  - reflexivity.
  - vm_compute; reflexivity.
  - reflexivity.
  - right. reflexivity.
  - left. reflexivity.
  - right. reflexivity.
Defined.

(** After a resolve that returned, the metadata sits under the private name
    and the accessor still raises. *)
Example info_after_geocode :
  let s := (geocode Fixtures.boston Fixtures.fresh).2 in
  self s !! __info
    = Some (Fixtures.geocoder_body (VNum (Fin (-7106 # 100)))
              (VNum (Fin (4236 # 100)))) ∧
  (info s).1 = Raise AttributeError.
Proof. vm_compute. done. Qed.

Lemma info_raises_AttributeError_witness :
  let s := (geocode Fixtures.boston Fixtures.fresh).2 in
  info s = (Raise AttributeError, s).
Proof.
  apply (info_raises_AttributeError Fixtures.boston).
  apply reach_geocode, reach_init.
Defined.

Lemma geocode_idempotent_witness :
  let s1 := (geocode Fixtures.boston Fixtures.fresh).2 in
  geocode Fixtures.boston s1 = (Ok tt, s1) ∧
  (_ ← geocode Fixtures.boston; geocode Fixtures.boston) Fixtures.fresh
    = (Ok tt, s1) ∧
  ∃ reqs, trace s1 = trace Fixtures.fresh ++ reqs ∧ length reqs ≤ 1.
Proof.
  apply (geocode_idempotent Fixtures.boston Fixtures.fresh).
  vm_compute. reflexivity.
Defined.

Lemma geocode_not_atomic_witness :
  let s1 := (geocode Fixtures.north_of_the_pole Fixtures.fresh).2 in
  (∃ v, self s1 !! __info = Some v ∧ truthy v = true) ∧
  self s1 !! __latitude = Some (VNum NaN) ∧
  self s1 !! __longitude = Some (VNum NaN) ∧
  ∀ n, geocode_times Fixtures.north_of_the_pole n s1 = (Ok tt, s1).
Proof.
  apply (geocode_not_atomic Fixtures.north_of_the_pole Fixtures.fresh
           latitude_message).
  - apply reach_init.
  - vm_compute. reflexivity.
Defined.

End AddressFacts.

(** * Facts about DistanceMatrix.py *)

Module DistanceMatrixFacts.
Import DistanceMatrix.

(** ** The comparison of coordinate lists *)

Lemma identical_list_spec (l1 l2 : list string) :
  __identical_list l1 l2 = true ↔
  (list_to_set l1 : gset string) = list_to_set l2.
Proof.
  unfold __identical_list. cbv zeta.
  rewrite andb_true_iff, !bool_decide_eq_true, !size_empty_iff.
  generalize (list_to_set l1 : gset string), (list_to_set l2 : gset string).
  intros X Y. split.
  - intros [H1 H2]. apply set_eq. intros x. split; intros Hx.
    + destruct (decide (x ∈ Y)) as [|Hn]; [done|].
      exfalso. apply (not_elem_of_empty (C:=gset string) x).
      rewrite <- H1. by apply elem_of_difference.
    + destruct (decide (x ∈ X)) as [|Hn]; [done|].
      exfalso. apply (not_elem_of_empty (C:=gset string) x).
      rewrite <- H2. by apply elem_of_difference.
  - intros ->. split; apply difference_diag.
Qed.

Lemma identical_list_permutation (l1 l2 : list string) :
  l1 ≡ₚ l2 → __identical_list l1 l2 = true.
Proof.
  intros Hp. apply identical_list_spec. apply set_eq. intros x.
  rewrite !elem_of_list_to_set. by rewrite Hp.
Qed.

(** ** The reshaping loop *)

Lemma dict_comprehension_well_formed item :
  well_formed_entry item →
  dict_comprehension keys_of_interest item = Ok
    [("travelDistance", field "travelDistance" item);
     ("travelDuration", field "travelDuration" item)].
Proof.
  intros [[d Hd] [t Ht]]. unfold field. simpl.
  unfold mbind, outcome_bind. by rewrite Hd, Ht.
Qed.

(** Filling up the current row: the entries that complete it are appended,
    the row is closed, and the loop goes on with an empty row. *)
Lemma build_loop_row n pre : ∀ rest counter row acc k,
  pre ≠ [] →
  Forall well_formed_entry pre →
  length row + length pre = n →
  counter = k * n + length row →
  build_loop n (pre ++ rest) counter row acc =
  build_loop n rest (counter + length pre) [] (acc ++ [row ++ (summary <$> pre)]).
Proof.
  induction pre as [|e pre IH]; intros rest counter row acc k Hne Hwf Hlen Hc;
    [done|].
  apply Forall_cons in Hwf as [He Hwf].
  rewrite <- app_comm_cons. cbn [build_loop].
  rewrite (dict_comprehension_well_formed _ He).
  unfold mbind at 1, outcome_bind at 1.
  fold (summary e).
  unfold py_mod. simpl in Hlen.
  destruct (Nat.eqb_spec n 0) as [->|Hn]; [lia|].
  unfold mbind, outcome_bind.
  destruct pre as [|e' pre].
  - simpl in *. replace (counter + 1) with ((k + 1) * n) by lia.
    rewrite Nat.Div0.mod_mul. simpl.
    by replace (S counter) with ((k + 1) * n) by lia.
  - assert ((counter + 1) `mod` n = length row + 1) as ->.
    { replace (counter + 1) with ((length row + 1) + k * n) by lia.
      rewrite Nat.Div0.mod_add. apply Nat.mod_small. simpl in Hlen. lia. }
    destruct (Nat.eqb_spec (length row + 1) 0) as [|_]; [lia|].
    rewrite (IH rest (S counter) (row ++ [summary e]) acc k); try done.
    + rewrite <- app_assoc. simpl.
      by replace (S (counter + S (length pre)))
        with (counter + S (S (length pre))) by lia.
    + rewrite length_app. simpl in *. lia.
    + rewrite length_app. simpl. lia.
Qed.

Lemma build_loop_rows n r : ∀ items k acc,
  0 < n →
  Forall well_formed_entry items →
  length items = r * n →
  build_loop n items (k * n) [] acc = Ok (acc ++ rows_of r n (summary <$> items)).
Proof.
  induction r as [|r IH]; intros items k acc Hn Hwf Hlen.
  - destruct items; [|done]. simpl. by rewrite app_nil_r.
  - rewrite <- (take_drop n items) at 1.
    rewrite (build_loop_row n (take n items) _ _ [] acc k).
    + rewrite length_take_le by (simpl in Hlen; lia).
      replace (k * n + n) with (S k * n) by lia.
      rewrite IH; try done.
      * simpl. rewrite <- app_assoc. simpl.
        by rewrite fmap_take, fmap_drop.
      * by apply Forall_drop.
      * rewrite length_drop. simpl in Hlen. lia.
    + intros Ht. apply (f_equal length) in Ht.
      rewrite length_take_le in Ht by (simpl in Hlen; lia). simpl in Ht. lia.
    + by apply Forall_take.
    + rewrite length_take_le by (simpl in Hlen; lia). done.
    + simpl. lia.
Qed.

Lemma rows_of_length r n cells : length (rows_of r n cells) = r.
Proof. revert cells. induction r as [|r IH]; intros; simpl; by rewrite ?IH. Qed.

Lemma rows_of_lookup r n : ∀ cells i,
  i < r → rows_of r n cells !! i = Some (take n (drop (i * n) cells)).
Proof.
  induction r as [|r IH]; intros cells [|i] Hi; try lia.
  - done.
  - simpl. rewrite IH by lia. by rewrite drop_drop, (Nat.add_comm n).
Qed.

(** ** Projecting the metric out of the grid *)

Lemma field_summary key item :
  recognized key = true →
  py_getitem_str (summary item) key = Ok (field key item).
Proof.
  unfold recognized. rewrite orb_true_iff, !String.eqb_eq.
  intros [-> | ->]; done.
Qed.

Lemma project_summaries key items :
  recognized key = true →
  project key (summary <$> items) = Ok (field key <$> items).
Proof.
  intros Hk. induction items as [|e items IH]; [done|].
  rewrite !fmap_cons. cbn [project]. rewrite (field_summary _ _ Hk).
  unfold mbind, outcome_bind in *. by rewrite IH.
Qed.

Lemma project_rows_of key n r : ∀ items acc,
  recognized key = true →
  project_rows key (rows_of r n (summary <$> items)) acc =
  Ok (acc ++ rows_of r n (field key <$> items)).
Proof.
  induction r as [|r IH]; intros items acc Hk; simpl.
  - by rewrite app_nil_r.
  - rewrite <- fmap_take, (project_summaries _ _ Hk).
    unfold mbind, outcome_bind.
    rewrite <- fmap_drop, (IH _ _ Hk), <- app_assoc. simpl.
    by rewrite fmap_take, fmap_drop.
Qed.

(** ** The cache *)

Section Cache.
Variable net : Network.

Lemma build_matrix_same_cache geocodes response s :
  same_cache (__build_matrix geocodes response s).2 s.
Proof.
  unfold __build_matrix, same_cache, lift, print, mbind, M_bind, mret, M_ret.
  repeat case_match; simplify_eq; done.
Qed.

Lemma get_matrix_same_cache geocodes api_key key travelMode s :
  recognized key = true →
  same_cache (get_matrix net geocodes api_key key travelMode s).2
             (__request_matrix net geocodes api_key travelMode s).2.
Proof.
  intros Hk. unfold get_matrix. rewrite Hk. simpl.
  unfold mbind, M_bind.
  destruct (__request_matrix net geocodes api_key travelMode s)
    as [[response|e] s1]; [|done].
  pose proof (build_matrix_same_cache geocodes response s1) as Hsame.
  destruct (__build_matrix geocodes response s1) as [[grid|e] s2]; [|done].
  unfold lift. by destruct (project_rows key grid []).
Qed.

(** [__request_matrix], statement by statement. *)
Lemma request_matrix_unfold geocodes api_key travelMode s :
  __request_matrix net geocodes api_key travelMode s =
  let made := {| __response := __response s;
                 __last_requested := __last_requested s;
                 __number_of_requests_saved := __number_of_requests_saved s;
                 __number_of_requests_made := __number_of_requests_made s + 1;
                 trace := trace s;
                 stdout := stdout s |} in
  match condition1_of (__response s) with
  | Raise e => (Raise e, made)
  | Ok condition1 =>
      if condition1 || negb (__identical_list (__last_requested s) geocodes)
      then
        let request := matrix_request geocodes api_key travelMode in
        match net (trace s) request with
        | None =>
            (Raise RequestException,
             {| __response := __response s;
                __last_requested := geocodes;
                __number_of_requests_saved := __number_of_requests_saved s;
                __number_of_requests_made := __number_of_requests_made s + 1;
                trace := trace s ++ [request];
                stdout := stdout s |})
        | Some body =>
            (Ok body,
             {| __response := body;
                __last_requested := geocodes;
                __number_of_requests_saved := __number_of_requests_saved s;
                __number_of_requests_made := __number_of_requests_made s + 1;
                trace := trace s ++ [request];
                stdout := stdout s |})
        end
      else
        (Ok (__response s),
         {| __response := __response s;
            __last_requested := __last_requested s;
            __number_of_requests_saved := __number_of_requests_saved s + 1;
            __number_of_requests_made := __number_of_requests_made s + 1;
            trace := trace s;
            stdout := stdout s |})
  end.
Proof.
  unfold __request_matrix, get, set_number_of_requests_made, lift,
    set_last_requested, requests_get_json, set_response,
    set_number_of_requests_saved, mbind, M_bind.
  simpl.
  destruct (condition1_of (__response s)) as [c1|e]; [|done].
  destruct (c1 || negb (__identical_list (__last_requested s) geocodes));
    [|done].
  simpl. by destruct (net (trace s) _).
Qed.

Lemma condition1_spec s :
  cache_well_formed s →
  ∃ c, condition1_of (__response s) = Ok c ∧
       (c = true ↔ no_prior_response s ∨ prior_status_not_200 s).
Proof.
  unfold cache_well_formed, no_prior_response, prior_status_not_200,
    condition1_of, mbind, outcome_bind.
  intros [Hlen | [code Hcode]].
  - rewrite Hlen. simpl. exists true. naive_solver.
  - rewrite Hcode.
    destruct (__response s) as [| | | | |d]; try done. simpl.
    destruct (Nat.eqb_spec (length d) 0) as [Hd|Hd].
    + exists true. split; [done|]. split; [|done]. intros _. left. by rewrite Hd.
    + exists (negb (py_eq_int code 200)). split; [done|].
      rewrite negb_true_iff. split.
      * intros Hne. right. by exists code.
      * intros [[= Hz] | (code' & [= <-] & Hne)]; done.
Qed.

(** The reuse test of one call, on the state the call finds: with a
    recognized metric and a cached response that is empty or carries a
    status code, [get_matrix] sends a new request exactly when the cached
    response is empty, or its status code is not 200, or the list held in
    [__last_requested] differs as a set from the coordinates; otherwise it
    sends nothing, keeps and hands back the cached response and adds one to
    the count of saved requests. *)
Lemma cache_reuse_iff geocodes api_key key travelMode s :
  recognized key = true →
  cache_well_formed s →
  let s' := (get_matrix net geocodes api_key key travelMode s).2 in
  let request := matrix_request geocodes api_key travelMode in
  let refetch :=
    no_prior_response s ∨ prior_status_not_200 s ∨
    coordinates_differ s geocodes in
  (trace s' = trace s ++ [request] ↔ refetch) ∧
  (refetch →
     __number_of_requests_saved s' = __number_of_requests_saved s) ∧
  (¬ refetch →
     trace s' = trace s ∧
     __response s' = __response s ∧
     (__request_matrix net geocodes api_key travelMode s).1
       = Ok (__response s) ∧
     __number_of_requests_saved s' = __number_of_requests_saved s + 1) ∧
  (__last_requested s ≡ₚ geocodes → ¬ coordinates_differ s geocodes).
Proof.
  intros Hk Hwf s' request refetch.
  destruct (get_matrix_same_cache geocodes api_key key travelMode s Hk)
    as (Hresp & _ & Hsaved & _ & Htrace).
  fold s' in Hresp, Hsaved, Htrace.
  rewrite Hresp, Hsaved, Htrace. clear Hresp Hsaved Htrace.
  rewrite request_matrix_unfold. cbv zeta. fold request.
  destruct (condition1_spec s Hwf) as (c1 & -> & Hc1).
  assert (c1 || negb (__identical_list (__last_requested s) geocodes) = true
          ↔ refetch) as Hcond.
  { rewrite orb_true_iff, negb_true_iff, Hc1.
    unfold refetch, coordinates_differ.
    rewrite <- identical_list_spec, not_true_iff_false. tauto. }
  assert (__last_requested s ≡ₚ geocodes → ¬ coordinates_differ s geocodes)
    as Hperm.
  { intros Hp Hd. apply Hd. apply identical_list_spec.
    by apply identical_list_permutation. }
  destruct (c1 || negb (__identical_list (__last_requested s) geocodes)).
  - assert refetch as Hr by by apply Hcond.
    split_and!; [|by destruct (net (trace s) request)|done|done].
    split; [done|]. intros _. by destruct (net (trace s) request).
  - assert (¬ refetch) as Hn by (intros Hr; by apply Hcond in Hr).
    split_and!; [|done|done|done].
    split; [|done]. simpl. intros Ht. apply (f_equal length) in Ht.
    rewrite length_app in Ht. simpl in Ht. lia.
Qed.

(** ** The matrix *)

(** [get_matrix] once the request step has returned [response]. *)
Lemma get_matrix_after_request geocodes api_key key travelMode s response s1 :
  recognized key = true →
  __request_matrix net geocodes api_key travelMode s = (Ok response, s1) →
  get_matrix net geocodes api_key key travelMode s =
  match __build_matrix geocodes response s1 with
  | (Ok grid, s2) => (project_rows key grid [], s2)
  | (Raise e, s2) => (Raise e, s2)
  end.
Proof.
  intros Hk Hreq. unfold get_matrix. rewrite Hk. simpl.
  unfold mbind, M_bind. rewrite Hreq.
  by destruct (__build_matrix geocodes response s1) as [[grid|e] s2].
Qed.

Lemma build_loop_square n entries :
  Forall well_formed_entry entries →
  length entries = n * n →
  build_loop n entries 0 [] [] = Ok (rows_of n n (summary <$> entries)).
Proof.
  intros Hwf Hlen. destruct n as [|n].
  - by destruct entries.
  - apply (build_loop_rows (S n) (S n) entries 0 []); [lia|done|done].
Qed.

(** C2: when the response that the request step hands over has status code
    200 and a flat result list of [n * n] entries carrying both fields,
    [n] being the number of coordinates, [get_matrix] returns a matrix of
    [n] rows of length [n] whose cell [i][j] is the requested field of
    entry [i * n + j]. *)
Theorem reshape_row_major geocodes api_key key travelMode s response s1
    code entries :
  recognized key = true →
  __request_matrix net geocodes api_key travelMode s = (Ok response, s1) →
  py_getitem_str response "statusCode" = Ok code →
  py_eq_int code 200 = true →
  results_of response = Ok (VList entries) →
  Forall well_formed_entry entries →
  length entries = length geocodes * length geocodes →
  ∃ matrix,
    get_matrix net geocodes api_key key travelMode s = (Ok matrix, s1) ∧
    length matrix = length geocodes ∧
    Forall (λ row, length row = length geocodes) matrix ∧
    ∀ i j, i < length geocodes → j < length geocodes →
      ∃ entry v row,
        entries !! (i * length geocodes + j) = Some entry ∧
        py_getitem_str entry key = Ok v ∧
        matrix !! i = Some row ∧ row !! j = Some v.
Proof.
  intros Hk Hreq Hcode H200 Hres Hwf Hlen.
  set (n := length geocodes) in *.
  exists (rows_of n n (field key <$> entries)).
  assert (∀ i, i < n →
            length (take n (drop (i * n) (field key <$> entries))) = n)
    as Hrow.
  { intros i Hi. rewrite length_take_le; [done|].
    rewrite length_drop, length_fmap, Hlen.
    assert (i * n + n ≤ n * n) by nia. lia. }
  split_and!.
  - rewrite (get_matrix_after_request _ _ _ _ _ _ _ Hk Hreq).
    unfold __build_matrix, lift, mbind, M_bind. rewrite Hcode, H200, Hres.
    simpl. fold n. rewrite (build_loop_square _ _ Hwf Hlen).
    by rewrite project_rows_of.
  - apply rows_of_length.
  - apply Forall_lookup. intros i row Hi.
    assert (i < n) as Hlt
      by (apply lookup_lt_Some in Hi; by rewrite rows_of_length in Hi).
    rewrite rows_of_lookup in Hi by done. simplify_eq. by apply Hrow.
  - intros i j Hi Hj.
    assert (i * n + j < length entries) as Hin by (rewrite Hlen; nia).
    destruct (lookup_lt_is_Some_2 _ _ Hin) as [entry Hentry].
    assert (well_formed_entry entry) as Hentry_wf
      by (eapply Forall_lookup_1; eauto).
    exists entry, (field key entry),
      (take n (drop (i * n) (field key <$> entries))).
    split_and!; [done| |by apply rows_of_lookup|].
    + destruct Hentry_wf as [[d Hd] [t Ht]]. unfold field.
      unfold recognized in Hk. apply orb_true_iff in Hk.
      rewrite !String.eqb_eq in Hk. destruct Hk as [-> | ->].
      * by rewrite Hd.
      * by rewrite Ht.
    + rewrite lookup_take_lt, lookup_drop, list_lookup_fmap by done.
      by rewrite Hentry.
Qed.

(** C3 as amended: a call with a recognized metric adds exactly one to the
    count of requests made, whether the cache is reused, a new request is
    sent, or the call raises; a call with any other metric leaves the count
    as it was. *)
Theorem requests_made_counter geocodes api_key key travelMode s :
  __number_of_requests_made (get_matrix net geocodes api_key key travelMode s).2
  = __number_of_requests_made s + (if recognized key then 1 else 0).
Proof.
  destruct (recognized key) eqn:Hk.
  - destruct (get_matrix_same_cache geocodes api_key key travelMode s Hk)
      as (_ & _ & _ & -> & _).
    rewrite request_matrix_unfold. cbv zeta.
    repeat case_match; done.
  - unfold get_matrix. rewrite Hk. simpl. lia.
Qed.

(** C7: when the response that the request step hands over carries a
    status code other than 200 and a status description, [get_matrix]
    returns the empty matrix and prints one line that names both. *)
Theorem degraded_response geocodes api_key key travelMode s response s1
    code description :
  recognized key = true →
  __request_matrix net geocodes api_key travelMode s = (Ok response, s1) →
  py_getitem_str response "statusCode" = Ok code →
  py_eq_int code 200 = false →
  py_getitem_str response "statusDescription" = Ok description →
  ∃ s2,
    get_matrix net geocodes api_key key travelMode s = (Ok [], s2) ∧
    stdout s2 = stdout s1 ++ [[Lit "Execution stopped with HTTP code ";
                               Fmt code; Lit " "; Fmt description]] ∧
    same_cache s2 s1.
Proof.
  intros Hk Hreq Hcode H200 Hdesc.
  rewrite (get_matrix_after_request _ _ _ _ _ _ _ Hk Hreq).
  unfold __build_matrix, lift, print, mbind, M_bind.
  rewrite Hcode, H200, Hdesc. simpl.
  eexists. split; [done|]. by split.
Qed.

(** C8: with a metric that is not one of the two, [get_matrix] returns the
    empty list and leaves the state as it was: no request is sent, nothing
    is counted. *)
Theorem unrecognized_metric geocodes api_key key travelMode s :
  recognized key = false →
  get_matrix net geocodes api_key key travelMode s = (Ok [], s).
Proof. intros Hk. unfold get_matrix. by rewrite Hk. Qed.

(** C9: with no coordinates, a recognized metric, and a response, new or
    cached, that has status code 200 and a first result entry carrying both
    fields, the reshape step takes a remainder modulo zero and
    [get_matrix] raises [ZeroDivisionError]. *)
Theorem empty_coordinates_raise api_key key travelMode s response s1
    code results item items :
  recognized key = true →
  __request_matrix net [] api_key travelMode s = (Ok response, s1) →
  py_getitem_str response "statusCode" = Ok code →
  py_eq_int code 200 = true →
  results_of response = Ok results →
  py_iter results = Ok (item :: items) →
  well_formed_entry item →
  get_matrix net [] api_key key travelMode s = (Raise ZeroDivisionError, s1).
Proof.
  intros Hk Hreq Hcode H200 Hres Hiter Hwf.
  rewrite (get_matrix_after_request _ _ _ _ _ _ _ Hk Hreq).
  unfold __build_matrix, lift, mbind, M_bind.
  rewrite Hcode, H200, Hres, Hiter.
  cbn [build_loop length]. by rewrite (dict_comprehension_well_formed _ Hwf).
Qed.

End Cache.

(** ** The statements at concrete inputs *)

Lemma cache_reuse_iff_instance :
  let geocodes := ["B"; "A"] in
  let s := Fixtures.warm in
  let s' := (get_matrix Fixtures.two_by_two geocodes "key" "travelDuration"
               "driving" s).2 in
  let request := matrix_request geocodes "key" "driving" in
  let refetch :=
    no_prior_response s ∨ prior_status_not_200 s ∨
    coordinates_differ s geocodes in
  (trace s' = trace s ++ [request] ↔ refetch) ∧
  (refetch →
     __number_of_requests_saved s' = __number_of_requests_saved s) ∧
  (¬ refetch →
     trace s' = trace s ∧
     __response s' = __response s ∧
     (__request_matrix Fixtures.two_by_two geocodes "key" "driving" s).1
       = Ok (__response s) ∧
     __number_of_requests_saved s' = __number_of_requests_saved s + 1) ∧
  (__last_requested s ≡ₚ geocodes → ¬ coordinates_differ s geocodes).
Proof.
  apply (cache_reuse_iff Fixtures.two_by_two ["B"; "A"] "key" "travelDuration"
           "driving" Fixtures.warm).
  - reflexivity.
  - right. exists (VNum (of_Z 200)). vm_compute. reflexivity.
Defined.

(** Asking for ["A", "B"] and then for ["B", "A"] sends one request and
    saves one. *)
Example cache_hit_on_reordering :
  let s' := (get_matrix Fixtures.two_by_two ["B"; "A"] "key" "travelDuration"
               "driving" Fixtures.warm).2 in
  length (trace s') = 1 ∧
  __number_of_requests_saved s' = 1 ∧
  __number_of_requests_made s' = 2.
Proof. vm_compute. done. Qed.

(** A coordinate listed twice counts once. *)
Example cache_hit_on_duplicate :
  let s' := (get_matrix Fixtures.two_by_two ["A"; "B"; "A"] "key"
               "travelDuration" "driving" Fixtures.warm).2 in
  length (trace s') = 1 ∧ __number_of_requests_saved s' = 1.
Proof. vm_compute. done. Qed.

(** Asking for ["A", "B"] and then for ["A", "C"] sends two requests. *)
Example cache_miss_on_change :
  let s' := (get_matrix Fixtures.two_by_two ["A"; "C"] "key" "travelDuration"
               "driving" Fixtures.warm).2 in
  length (trace s') = 2 ∧
  __number_of_requests_saved s' = 0 ∧
  __number_of_requests_made s' = 2.
Proof. vm_compute. done. Qed.

Lemma reshape_row_major_witness :
  ∃ matrix,
    get_matrix Fixtures.two_by_two ["A"; "B"] "key" "travelDistance" "driving"
      initial = (Ok matrix, Fixtures.warm) ∧
    length matrix = length ["A"; "B"] ∧
    Forall (λ row, length row = length ["A"; "B"]) matrix ∧
    ∀ i j, i < length ["A"; "B"] → j < length ["A"; "B"] →
      ∃ entry v row,
        Fixtures.two_by_two_entries !! (i * length ["A"; "B"] + j)
          = Some entry ∧
        py_getitem_str entry "travelDistance" = Ok v ∧
        matrix !! i = Some row ∧ row !! j = Some v.
Proof.
  apply (reshape_row_major Fixtures.two_by_two ["A"; "B"] "key"
           "travelDistance" "driving" initial
           (Fixtures.routes_body Fixtures.two_by_two_entries) Fixtures.warm
           (VNum (of_Z 200)) Fixtures.two_by_two_entries).
  - reflexivity.
  - vm_compute. reflexivity.
  - reflexivity.
  - reflexivity.
  - reflexivity.
  - repeat constructor; by eexists.
  - reflexivity.
Defined.

(** The matrix of distances and the matrix of durations of the four
    entries. *)
Example two_by_two_distances :
  (get_matrix Fixtures.two_by_two ["A"; "B"] "key" "travelDistance" "driving"
     initial).1
  = Ok [[VNum (Fin 0); VNum (Fin (53 # 10))];
        [VNum (Fin (61 # 10)); VNum (Fin 0)]].
Proof. reflexivity. Qed.

(** The claim as first stated fails: a call with a metric that is not
    recognized returns before the count of requests made is touched. *)
Lemma requests_made_not_counted :
  ¬ (∀ net geocodes api_key key travelMode s,
       __number_of_requests_made
         (get_matrix net geocodes api_key key travelMode s).2
       = __number_of_requests_made s + 1).
Proof.
  intros H.
  specialize (H Fixtures.two_by_two ["A"; "B"] "key" "travelTime" "driving"
                initial).
  vm_compute in H. discriminate H.
Qed.

Lemma degraded_response_witness :
  ∃ s2,
    get_matrix Fixtures.unauthorized ["A"; "B"] "key" "travelDistance"
      "driving" initial = (Ok [], s2) ∧
    stdout s2 =
      stdout (__request_matrix Fixtures.unauthorized ["A"; "B"] "key"
                "driving" initial).2
      ++ [[Lit "Execution stopped with HTTP code "; Fmt (VNum (of_Z 401));
           Lit " "; Fmt (VStr "Unauthorized")]] ∧
    same_cache s2
      (__request_matrix Fixtures.unauthorized ["A"; "B"] "key" "driving"
         initial).2.
Proof.
  apply (degraded_response Fixtures.unauthorized ["A"; "B"] "key"
           "travelDistance" "driving" initial Fixtures.unauthorized_body).
  - reflexivity.
  - vm_compute. reflexivity.
  - reflexivity.
  - reflexivity.
  - reflexivity.
Defined.

Lemma unrecognized_metric_witness :
  get_matrix Fixtures.two_by_two ["A"; "B"] "key" "travelTime" "driving"
    initial = (Ok [], initial).
Proof.
  apply (unrecognized_metric Fixtures.two_by_two). reflexivity.
Defined.

Lemma empty_coordinates_raise_witness :
  get_matrix Fixtures.two_by_two [] "key" "travelDistance" "driving" initial
  = (Raise ZeroDivisionError,
     (__request_matrix Fixtures.two_by_two [] "key" "driving" initial).2).
Proof.
  apply (empty_coordinates_raise Fixtures.two_by_two "key" "travelDistance"
           "driving" initial
           (Fixtures.routes_body Fixtures.two_by_two_entries) _
           (VNum (of_Z 200)) (VList Fixtures.two_by_two_entries)
           (Fixtures.route_entry 0 0 0 0)
           (tail Fixtures.two_by_two_entries)).
  - reflexivity.
  - vm_compute. reflexivity.
  - reflexivity.
  - reflexivity.
  - reflexivity.
  - reflexivity.
  - split; by eexists.
Defined.

End DistanceMatrixFacts.


(** * More facts about DistanceMatrix.py *)

Module DistanceMatrixMore.
Import DistanceMatrix Session.

(** ** Comparing coordinate lists *)

(** X1: two lists compare as identical exactly when they have the same
    members, whatever the order and however often a member is listed. *)
Theorem identical_list_members (list1 list2 : list string) :
  __identical_list list1 list2 = true ↔ ∀ x, x ∈ list1 ↔ x ∈ list2.
Proof.
  rewrite DistanceMatrixFacts.identical_list_spec, set_eq.
  by setoid_rewrite elem_of_list_to_set.
Qed.

(** ** The shape of the result, whatever the response *)

Lemma succ_mod n c :
  0 < n →
  (c + 1) `mod` n = if Nat.eqb (c `mod` n + 1) n then 0 else c `mod` n + 1.
Proof.
  intros Hn.
  pose proof (Nat.mod_upper_bound c n ltac:(lia)) as Hlt.
  pose proof (Nat.div_mod_eq c n) as Hc.
  destruct (Nat.eqb_spec (c `mod` n + 1) n) as [Heq|Hne].
  - replace (c + 1) with ((c `div` n + 1) * n) by nia.
    apply Nat.Div0.mod_mul.
  - replace (c + 1) with ((c `mod` n + 1) + (c `div` n) * n) by nia.
    rewrite Nat.Div0.mod_add. apply Nat.mod_small. lia.
Qed.

(** The loop closes a row exactly when it holds [n] cells. *)
Lemma build_loop_row_lengths n items : ∀ counter row matrix result,
  length row = counter `mod` n →
  Forall (λ r, length r = n) matrix →
  build_loop n items counter row matrix = Ok result →
  Forall (λ r, length r = n) result.
Proof.
  induction items as [|item items IH]; intros counter row matrix result
    Hrow Hmatrix; simpl.
  - by intros [= <-].
  - unfold mbind, outcome_bind.
    destruct (py_getitem_str item "travelDistance"); [|done].
    destruct (py_getitem_str item "travelDuration"); [|done].
    unfold py_mod. destruct (Nat.eqb_spec n 0) as [->|Hn]; [done|].
    rewrite succ_mod by lia.
    destruct (Nat.eqb_spec (counter `mod` n + 1) n) as [Hfull|Hpart]; simpl.
    + apply IH.
      * replace (S counter) with (counter + 1) by lia.
        rewrite succ_mod by lia.
        by destruct (Nat.eqb_spec (counter `mod` n + 1) n).
      * apply Forall_app. split; [done|].
        apply Forall_singleton. rewrite length_app. simpl. lia.
    + destruct (Nat.eqb_spec (counter `mod` n + 1) 0) as [|_]; [lia|].
      apply IH; [|done].
      replace (S counter) with (counter + 1) by lia.
      rewrite succ_mod by lia.
      destruct (Nat.eqb_spec (counter `mod` n + 1) n); [done|].
      rewrite length_app. simpl. lia.
Qed.

Lemma project_length key row : ∀ result,
  project key row = Ok result → length result = length row.
Proof.
  induction row as [|x row IH]; intros result; simpl.
  - by intros [= <-].
  - unfold mbind, outcome_bind.
    destruct (py_getitem_str x key); [|done].
    destruct (project key row) as [rest|]; [|done].
    intros [= <-]. simpl. by rewrite (IH rest).
Qed.

Lemma project_rows_lengths key n grid : ∀ matrix result,
  Forall (λ r, length r = n) grid →
  Forall (λ r, length r = n) matrix →
  project_rows key grid matrix = Ok result →
  Forall (λ r, length r = n) result.
Proof.
  induction grid as [|row grid IH]; intros matrix result Hgrid Hmatrix; simpl.
  - by intros [= <-].
  - apply Forall_cons in Hgrid as [Hrow Hgrid].
    unfold mbind, outcome_bind.
    destruct (project key row) as [r|] eqn:Hr; [|done].
    apply IH; [done|].
    apply Forall_app. split; [done|].
    apply Forall_singleton. by rewrite (project_length _ _ _ Hr).
Qed.

Section Shape.
Variable net : Network.

(** X2: whatever the service answered, a matrix that [get_matrix] returns
    has only rows of length [len(geocodes)]. *)
Theorem rows_have_one_cell_per_coordinate geocodes api_key key travelMode s
    matrix s' :
  get_matrix net geocodes api_key key travelMode s = (Ok matrix, s') →
  Forall (λ row, length row = length geocodes) matrix.
Proof.
  unfold get_matrix.
  destruct (recognized key); simpl; [|by intros [= <- _]].
  unfold mbind, M_bind.
  destruct (__request_matrix net geocodes api_key travelMode s)
    as [[response|e] s1]; [|done].
  destruct (__build_matrix geocodes response s1) as [[grid|e] s2] eqn:Hgrid;
    [|done].
  unfold lift. intros [= Hproj _].
  apply (project_rows_lengths key _ grid [] matrix); [|done|done].
  unfold __build_matrix, lift, print, mbind, M_bind, mret, M_ret in Hgrid.
  repeat (case_match; simplify_eq); try done.
  eapply (build_loop_row_lengths _ _ 0 [] []); [|done|done].
  simpl. by rewrite Nat.Div0.mod_0_l.
Qed.

End Shape.

(** ** Results that do not fill the last row *)

Lemma build_loop_rows_then n r : ∀ items rest k acc,
  0 < n →
  Forall well_formed_entry items →
  length items = r * n →
  build_loop n (items ++ rest) (k * n) [] acc =
  build_loop n rest ((k + r) * n) [] (acc ++ rows_of r n (summary <$> items)).
Proof.
  induction r as [|r IH]; intros items rest k acc Hn Hwf Hlen.
  - destruct items; [|done]. simpl.
    by rewrite app_nil_r, Nat.add_0_r.
  - rewrite <- (take_drop n items) at 1. rewrite <- app_assoc.
    rewrite (DistanceMatrixFacts.build_loop_row n (take n items) _ _ [] acc k).
    + rewrite length_take_le by (simpl in Hlen; lia).
      replace (k * n + n) with (S k * n) by lia.
      rewrite IH; try done.
      * replace (S k + r) with (k + S r) by lia.
        cbn [rows_of]. rewrite <- app_assoc. simpl.
        by rewrite fmap_take, fmap_drop.
      * by apply Forall_drop.
      * rewrite length_drop. simpl in Hlen. lia.
    + intros Ht. apply (f_equal length) in Ht.
      rewrite length_take_le in Ht by (simpl in Hlen; lia). simpl in Ht. lia.
    + by apply Forall_take.
    + rewrite length_take_le by (simpl in Hlen; lia). done.
    + simpl. lia.
Qed.

(** Entries too few to complete the current row leave the matrix as it
    is. *)
Lemma build_loop_short n items : ∀ counter row acc k,
  Forall well_formed_entry items →
  length row + length items < n →
  counter = k * n + length row →
  build_loop n items counter row acc = Ok acc.
Proof.
  induction items as [|e items IH]; intros counter row acc k Hwf Hlen Hc;
    [done|].
  apply Forall_cons in Hwf as [He Hwf].
  cbn [build_loop].
  rewrite (DistanceMatrixFacts.dict_comprehension_well_formed _ He).
  unfold mbind at 1, outcome_bind at 1. fold (summary e).
  unfold py_mod. simpl in Hlen.
  destruct (Nat.eqb_spec n 0) as [->|Hn]; [lia|].
  unfold mbind, outcome_bind.
  assert ((counter + 1) `mod` n = length row + 1) as ->.
  { replace (counter + 1) with ((length row + 1) + k * n) by lia.
    rewrite Nat.Div0.mod_add. apply Nat.mod_small. lia. }
  destruct (Nat.eqb_spec (length row + 1) 0) as [|_]; [lia|].
  apply (IH _ _ _ k); [done| |]; rewrite length_app; simpl; lia.
Qed.

Lemma rows_of_prefix r n : ∀ cells rest,
  length cells = r * n → rows_of r n (cells ++ rest) = rows_of r n cells.
Proof.
  induction r as [|r IH]; intros cells rest Hlen; [done|].
  simpl in *.
  rewrite take_app_le, drop_app_le by lia.
  rewrite IH by (rewrite length_drop; lia). done.
Qed.

Section Incomplete.
Variable net : Network.

(** X3: with at least one coordinate, a status-200 response and entries
    that carry both fields, [get_matrix] returns as many rows as the entries
    fill completely, [len(entries) // len(geocodes)], with cell [i][j] the
    requested field of entry [i * n + j]; the entries left over after the
    last complete row are dropped without an error. *)
Theorem incomplete_last_row_is_dropped geocodes api_key key travelMode s
    response s1 code entries :
  recognized key = true →
  __request_matrix net geocodes api_key travelMode s = (Ok response, s1) →
  py_getitem_str response "statusCode" = Ok code →
  py_eq_int code 200 = true →
  results_of response = Ok (VList entries) →
  Forall well_formed_entry entries →
  0 < length geocodes →
  ∃ matrix,
    get_matrix net geocodes api_key key travelMode s = (Ok matrix, s1) ∧
    length matrix = length entries `div` length geocodes ∧
    ∀ i j, i < length entries `div` length geocodes → j < length geocodes →
      ∃ entry v row,
        entries !! (i * length geocodes + j) = Some entry ∧
        py_getitem_str entry key = Ok v ∧
        matrix !! i = Some row ∧ row !! j = Some v.
Proof.
  intros Hk Hreq Hcode H200 Hres Hwf Hn.
  set (n := length geocodes) in *.
  set (q := length entries `div` n).
  pose proof (Nat.div_mod_eq (length entries) n) as Hdiv. fold q in Hdiv.
  pose proof (Nat.mod_upper_bound (length entries) n ltac:(lia)) as Hrem.
  set (full := take (q * n) entries).
  assert (length full = q * n) as Hfull
    by (unfold full; rewrite length_take_le; lia).
  exists (rows_of q n (field key <$> full)).
  split_and!.
  - rewrite (DistanceMatrixFacts.get_matrix_after_request _ _ _ _ _ _ _ _
               Hk Hreq).
    unfold __build_matrix, lift, mbind, M_bind. rewrite Hcode, H200, Hres.
    simpl. fold n.
    rewrite <- (take_drop (q * n) entries). fold full.
    rewrite (build_loop_rows_then n q full _ 0 []);
      [|done|by apply Forall_take|done].
    rewrite (build_loop_short n _ _ [] _ q);
      [|by apply Forall_drop|rewrite length_drop; simpl; lia|simpl; lia].
    simpl. by rewrite DistanceMatrixFacts.project_rows_of.
  - apply DistanceMatrixFacts.rows_of_length.
  - intros i j Hi Hj.
    assert (i * n + j < q * n) as Hin by nia.
    assert (i * n + j < length entries) as Hin' by lia.
    destruct (lookup_lt_is_Some_2 _ _ Hin') as [entry Hentry].
    assert (well_formed_entry entry) as Hentry_wf
      by (eapply Forall_lookup_1; eauto).
    exists entry, (field key entry),
      (take n (drop (i * n) (field key <$> full))).
    split_and!; [done| |by apply DistanceMatrixFacts.rows_of_lookup|].
    + destruct Hentry_wf as [[d Hd] [t Ht]]. unfold field.
      unfold recognized in Hk. apply orb_true_iff in Hk.
      rewrite !String.eqb_eq in Hk. destruct Hk as [-> | ->].
      * by rewrite Hd.
      * by rewrite Ht.
    + rewrite lookup_take_lt, lookup_drop, list_lookup_fmap by done.
      unfold full. rewrite lookup_take_lt by done. by rewrite Hentry.
Qed.

End Incomplete.

(** ** Entries that lack a field *)

(** Entries that carry both fields take the loop to its next state. *)
Lemma build_loop_skip n pre : ∀ counter row acc,
  0 < n →
  Forall well_formed_entry pre →
  ∃ counter' row' acc', ∀ rest,
    build_loop n (pre ++ rest) counter row acc =
    build_loop n rest counter' row' acc'.
Proof.
  induction pre as [|e pre IH]; intros counter row acc Hn Hwf.
  - by exists counter, row, acc.
  - apply Forall_cons in Hwf as [He Hwf].
    destruct (Nat.eqb ((counter + 1) `mod` n) 0) eqn:Hfull.
    + destruct (IH (S counter) [] (acc ++ [row ++ [summary e]]) Hn Hwf)
        as (c' & row' & acc' & Hskip).
      exists c', row', acc'. intros rest.
      rewrite <- app_comm_cons. cbn [build_loop].
      rewrite (DistanceMatrixFacts.dict_comprehension_well_formed _ He).
      unfold py_mod, mbind, outcome_bind.
      destruct (Nat.eqb_spec n 0) as [|_]; [lia|].
      rewrite Hfull. apply Hskip.
    + destruct (IH (S counter) (row ++ [summary e]) acc Hn Hwf)
        as (c' & row' & acc' & Hskip).
      exists c', row', acc'. intros rest.
      rewrite <- app_comm_cons. cbn [build_loop].
      rewrite (DistanceMatrixFacts.dict_comprehension_well_formed _ He).
      unfold py_mod, mbind, outcome_bind.
      destruct (Nat.eqb_spec n 0) as [|_]; [lia|].
      rewrite Hfull. apply Hskip.
Qed.

Section MissingField.
Variable net : Network.

(** X4: the loop reads both fields of every entry, so one entry that is a
    dict without [travelDistance] or without [travelDuration] makes
    [get_matrix] raise [KeyError], also when the missing field is not the
    requested metric. *)
Theorem missing_field_raises_KeyError geocodes api_key key travelMode s
    response s1 code before d after :
  recognized key = true →
  __request_matrix net geocodes api_key travelMode s = (Ok response, s1) →
  py_getitem_str response "statusCode" = Ok code →
  py_eq_int code 200 = true →
  results_of response = Ok (VList (before ++ VDict d :: after)) →
  Forall well_formed_entry before →
  dict_get d "travelDistance" = None ∨ dict_get d "travelDuration" = None →
  0 < length geocodes →
  get_matrix net geocodes api_key key travelMode s = (Raise KeyError, s1).
Proof.
  intros Hk Hreq Hcode H200 Hres Hwf Hmissing Hn.
  rewrite (DistanceMatrixFacts.get_matrix_after_request _ _ _ _ _ _ _ _
             Hk Hreq).
  unfold __build_matrix, lift, mbind, M_bind. rewrite Hcode, H200, Hres.
  simpl py_iter. cbv iota beta.
  destruct (build_loop_skip (length geocodes) before 0 [] [] Hn Hwf)
    as (c' & row' & acc' & ->).
  cbn [build_loop dict_comprehension keys_of_interest].
  unfold mbind, outcome_bind, py_getitem_str.
  destruct (dict_get d "travelDistance"); [|done].
  destruct Hmissing as [|Hduration]; [done|]. by rewrite Hduration.
Qed.

End MissingField.

(** ** Sequences of calls *)

Section Calls.
Variable net : Network.

Lemma get_matrix_guard geocodes api_key key travelMode s :
  recognized key = false →
  (get_matrix net geocodes api_key key travelMode s).2 = s.
Proof. intros Hk. unfold get_matrix. by rewrite Hk. Qed.

Lemma request_matrix_counters geocodes api_key travelMode s :
  let s' := (__request_matrix net geocodes api_key travelMode s).2 in
  __number_of_requests_made s' = __number_of_requests_made s + 1 ∧
  __number_of_requests_saved s' + length (trace s')
    ≤ __number_of_requests_saved s + length (trace s) + 1.
Proof.
  rewrite DistanceMatrixFacts.request_matrix_unfold. cbv zeta.
  repeat case_match; simpl; rewrite ?length_app; simpl; lia.
Qed.

(** X5: from the class as loaded, after any calls of [get_matrix], the
    requests saved and the requests sent together never exceed the requests
    made. *)
Theorem saved_and_sent_within_made s :
  later net initial s →
  __number_of_requests_saved s + length (trace s)
    ≤ __number_of_requests_made s.
Proof.
  induction 1 as [|s geocodes api_key key travelMode _ IH]; [done|].
  destruct (recognized key) eqn:Hk.
  - destruct (DistanceMatrixFacts.get_matrix_same_cache net geocodes api_key
                key travelMode s Hk) as (_ & _ & -> & -> & ->).
    pose proof (request_matrix_counters geocodes api_key travelMode s)
      as [Hmade Hrest].
    cbv zeta in Hmade, Hrest. lia.
  - by rewrite (get_matrix_guard geocodes api_key key travelMode s Hk).
Qed.

Lemma condition1_success s :
  cached_success s → condition1_of (__response s) = Ok false.
Proof.
  intros (code & Hcode & H200).
  unfold condition1_of.
  destruct (__response s) as [| | | | |d]; try done.
  destruct d as [|kv d]; [done|].
  cbn [py_len length]. unfold mbind, outcome_bind. cbn [Nat.eqb].
  by rewrite Hcode, H200.
Qed.

(** X6: when the request for new coordinates fails, the class has already
    taken note of the new coordinates but still holds the old response; the
    next call for these coordinates sends nothing and is handed the
    response that was fetched for the old ones. *)
Theorem failed_request_leaves_stale_response geocodes api_key key travelMode s :
  recognized key = true →
  cached_success s →
  coordinates_differ s geocodes →
  net (trace s) (matrix_request geocodes api_key travelMode) = None →
  ∃ s1,
    get_matrix net geocodes api_key key travelMode s
      = (Raise RequestException, s1) ∧
    __response s1 = __response s ∧
    ∀ net' api_key' travelMode',
      __request_matrix net' geocodes api_key' travelMode' s1
        = (Ok (__response s), served_from_cache s1).
Proof.
  intros Hk Hok Hdiff Hdown.
  assert (__identical_list (__last_requested s) geocodes = false) as Hnot.
  { apply not_true_iff_false.
    by rewrite DistanceMatrixFacts.identical_list_spec. }
  eexists. split_and!.
  - unfold get_matrix. rewrite Hk. simpl. unfold mbind at 1, M_bind at 1.
    rewrite DistanceMatrixFacts.request_matrix_unfold. cbv zeta.
    rewrite (condition1_success _ Hok), Hnot, Hdown. simpl. reflexivity.
  - done.
  - intros net' api_key' travelMode'.
    rewrite DistanceMatrixFacts.request_matrix_unfold. cbv zeta. simpl.
    assert (condition1_of (__response s) = Ok false) as ->
      by by apply condition1_success.
    assert (__identical_list geocodes geocodes = true) as ->
      by by apply DistanceMatrixFacts.identical_list_spec.
    done.
Qed.

(** What [__request_matrix] hands back is what the class then holds, and
    the coordinates it holds compare as identical to the ones asked for. *)
Lemma request_matrix_returns_cached geocodes api_key travelMode s response s1 :
  __request_matrix net geocodes api_key travelMode s = (Ok response, s1) →
  __response s1 = response ∧
  __identical_list (__last_requested s1) geocodes = true.
Proof.
  rewrite DistanceMatrixFacts.request_matrix_unfold. cbv zeta.
  destruct (condition1_of (__response s)) as [c1|]; [|done].
  destruct (c1 || negb (__identical_list (__last_requested s) geocodes))
    eqn:Hcond.
  - destruct (net (trace s) _); [|done]. intros [= <- <-]. simpl.
    split; [done|]. by apply DistanceMatrixFacts.identical_list_spec.
  - intros [= <- <-]. simpl. split; [done|].
    apply orb_false_iff in Hcond as [_ Hid]. by apply negb_false_iff in Hid.
Qed.

Lemma build_matrix_success geocodes response s grid s' :
  (∃ code, py_getitem_str response "statusCode" = Ok code ∧
           py_eq_int code 200 = true) →
  __build_matrix geocodes response s = (Ok grid, s') →
  s' = s ∧ ∀ s0, __build_matrix geocodes response s0 = (Ok grid, s0).
Proof.
  intros (code & Hcode & H200).
  unfold __build_matrix, lift, mbind, M_bind. rewrite Hcode, H200.
  destruct (results_of response) as [results|]; [|done].
  destruct (py_iter results) as [items|]; [|done].
  destruct (build_loop (length geocodes) items 0 [] []); [|done].
  by intros [= <- <-].
Qed.

End Calls.

Section Repeat.
Variables net net' : Network.

(** X7: neither the key nor the travel mode is part of what the cache
    compares.  After a call that returned a matrix and left a status-200
    response, the same coordinates and metric with any other key, any other
    travel mode and any behaviour of the service are answered from the
    cache with the same matrix. *)
Theorem cache_ignores_key_and_mode geocodes api_key key travelMode s matrix s1
    api_key' travelMode' :
  recognized key = true →
  get_matrix net geocodes api_key key travelMode s = (Ok matrix, s1) →
  cached_success s1 →
  get_matrix net' geocodes api_key' key travelMode' s1
    = (Ok matrix, served_from_cache s1).
Proof.
  intros Hk Hfirst Hok.
  unfold get_matrix in *. rewrite Hk in *. simpl in *.
  unfold mbind, M_bind in *.
  destruct (__request_matrix net geocodes api_key travelMode s)
    as [[response|e] s0] eqn:Hreq; [|done].
  destruct (request_matrix_returns_cached net _ _ _ _ _ _ Hreq) as [Hresp Hid].
  pose proof (DistanceMatrixFacts.build_matrix_same_cache geocodes response s0)
    as (Hsame & Hlast & _).
  destruct (__build_matrix geocodes response s0) as [[grid|e] s2] eqn:Hgrid;
    [|done].
  unfold lift in Hfirst.
  destruct (project_rows key grid []) as [m|] eqn:Hproj; [|done].
  injection Hfirst as Hm Hs. rewrite <- Hs in *. rewrite <- Hm.
  simpl in Hsame, Hlast. unfold cached_success in Hok.
  rewrite Hsame, Hresp in Hok.
  destruct (build_matrix_success _ _ _ _ _ Hok Hgrid) as [-> Hbuild].
  rewrite DistanceMatrixFacts.request_matrix_unfold. cbv zeta.
  rewrite (condition1_success s0) by (unfold cached_success; by rewrite Hresp).
  rewrite Hid. simpl. rewrite <- Hresp in Hbuild. rewrite Hbuild.
  unfold lift. by rewrite Hproj.
Qed.

End Repeat.

Section Wedged.
Variable net : Network.

(** X8: a cached response that the reuse test cannot read (its [len]
    raises, or it is not empty and has no [statusCode]) is never replaced.
    From then on every call with a recognized metric raises the same
    exception before any request is sent, and only the count of requests
    made moves. *)
Theorem unreadable_cache_is_never_replaced e s s' :
  condition1_of (__response s) = Raise e →
  later net s s' →
  __response s' = __response s ∧
  trace s' = trace s ∧
  ∀ geocodes api_key key travelMode,
    recognized key = true →
    get_matrix net geocodes api_key key travelMode s' = (Raise e, counted s').
Proof.
  intros Hbad Hlater.
  assert (∀ s0, __response s0 = __response s →
            ∀ geocodes api_key key travelMode,
              recognized key = true →
              get_matrix net geocodes api_key key travelMode s0
                = (Raise e, counted s0)) as Hstep.
  { intros s0 Hresp geocodes api_key key travelMode Hk.
    unfold get_matrix. rewrite Hk. simpl. unfold mbind, M_bind.
    rewrite DistanceMatrixFacts.request_matrix_unfold. cbv zeta.
    rewrite <- Hresp in Hbad. by rewrite Hbad. }
  assert (__response s' = __response s ∧ trace s' = trace s) as [Hresp Htrace].
  { induction Hlater as [|s' geocodes api_key key travelMode _ [IHr IHt]];
      [done|].
    destruct (recognized key) eqn:Hk.
    - by rewrite (Hstep s' IHr geocodes api_key key travelMode Hk).
    - by rewrite (get_matrix_guard net geocodes api_key key travelMode s' Hk). }
  split_and!; [done|done|]. by apply Hstep.
Qed.

End Wedged.

Lemma saved_and_sent_within_made_witness :
  __number_of_requests_saved Fixtures.warm + length (trace Fixtures.warm)
    ≤ __number_of_requests_made Fixtures.warm.
Proof.
  apply (saved_and_sent_within_made Fixtures.two_by_two).
  apply (later_call Fixtures.two_by_two initial initial ["A"; "B"] "key"
           "travelDistance" "driving").
  apply later_refl.
Defined.

Lemma failed_request_leaves_stale_response_witness :
  let s := (get_matrix MoreFixtures.down_once ["A"; "B"] "key"
              "travelDistance" "driving" initial).2 in
  ∃ s1,
    get_matrix MoreFixtures.down_once ["A"; "C"] "key" "travelDistance"
      "driving" s = (Raise RequestException, s1) ∧
    __response s1 = __response s ∧
    ∀ net' api_key' travelMode',
      __request_matrix net' ["A"; "C"] api_key' travelMode' s1
        = (Ok (__response s), served_from_cache s1).
Proof.
  apply (failed_request_leaves_stale_response MoreFixtures.down_once
           ["A"; "C"] "key" "travelDistance" "driving").
  - reflexivity.
  - exists (VNum (of_Z 200)). split; reflexivity.
  - intros Heq. apply DistanceMatrixFacts.identical_list_spec in Heq.
    vm_compute in Heq. discriminate Heq.
  - vm_compute. reflexivity.
Defined.

Lemma cache_ignores_key_and_mode_witness :
  get_matrix MoreFixtures.gateway_error ["A"; "B"] "another key"
    "travelDistance" "walking" Fixtures.warm
  = (Ok [[VNum (Fin 0); VNum (Fin (53 # 10))];
         [VNum (Fin (61 # 10)); VNum (Fin 0)]],
     served_from_cache Fixtures.warm).
Proof.
  apply (cache_ignores_key_and_mode Fixtures.two_by_two
           MoreFixtures.gateway_error ["A"; "B"] "key" "travelDistance"
           "driving" initial).
  - reflexivity.
  - vm_compute. reflexivity.
  - exists (VNum (of_Z 200)). split; reflexivity.
Defined.

Lemma unreadable_cache_is_never_replaced_witness :
  let s := (get_matrix MoreFixtures.gateway_error ["A"; "B"] "key"
              "travelDistance" "driving" initial).2 in
  let s' := (get_matrix Fixtures.two_by_two ["C"] "key" "travelDuration"
               "walking" s).2 in
  __response s' = __response s ∧
  trace s' = trace s ∧
  ∀ geocodes api_key key travelMode,
    recognized key = true →
    get_matrix Fixtures.two_by_two geocodes api_key key travelMode s'
      = (Raise KeyError, counted s').
Proof.
  apply (unreadable_cache_is_never_replaced Fixtures.two_by_two KeyError).
  - reflexivity.
  - apply later_call, later_refl.
Defined.

Lemma missing_field_raises_KeyError_witness :
  get_matrix MoreFixtures.no_duration ["A"; "B"] "key" "travelDistance"
    "driving" initial
  = (Raise KeyError,
     (__request_matrix MoreFixtures.no_duration ["A"; "B"] "key" "driving"
        initial).2).
Proof.
  apply (missing_field_raises_KeyError MoreFixtures.no_duration ["A"; "B"]
           "key" "travelDistance" "driving" initial
           (Fixtures.routes_body MoreFixtures.no_duration_entries) _
           (VNum (of_Z 200))
           [Fixtures.route_entry 0 0 0 0]
           [("travelDistance", VNum (Fin (53 # 10)))]
           [Fixtures.route_entry 1 0 (61 # 10) 8;
            Fixtures.route_entry 1 1 0 0]).
  - reflexivity.
  - vm_compute. reflexivity.
  - reflexivity.
  - reflexivity.
  - reflexivity.
  - repeat constructor; by eexists.
  - right. reflexivity.
  - simpl. lia.
Defined.

Lemma incomplete_last_row_is_dropped_witness :
  ∃ matrix,
    get_matrix MoreFixtures.one_too_many ["A"; "B"] "key" "travelDistance"
      "driving" initial
    = (Ok matrix,
       (__request_matrix MoreFixtures.one_too_many ["A"; "B"] "key" "driving"
          initial).2) ∧
    length matrix = length MoreFixtures.five_entries `div` length ["A"; "B"] ∧
    ∀ i j,
      i < length MoreFixtures.five_entries `div` length ["A"; "B"] →
      j < length ["A"; "B"] →
      ∃ entry v row,
        MoreFixtures.five_entries !! (i * length ["A"; "B"] + j) = Some entry ∧
        py_getitem_str entry "travelDistance" = Ok v ∧
        matrix !! i = Some row ∧ row !! j = Some v.
Proof.
  apply (incomplete_last_row_is_dropped MoreFixtures.one_too_many ["A"; "B"]
           "key" "travelDistance" "driving" initial
           (Fixtures.routes_body MoreFixtures.five_entries) _
           (VNum (of_Z 200)) MoreFixtures.five_entries).
  - reflexivity.
  - vm_compute. reflexivity.
  - reflexivity.
  - reflexivity.
  - reflexivity.
  - repeat constructor; by eexists.
  - simpl. lia.
Defined.

Lemma rows_have_one_cell_per_coordinate_witness :
  Forall (λ row, length row = length ["A"; "B"; "A"])
    [[VNum (Fin 0); VNum (Fin 7); VNum (Fin 8)]].
Proof.
  apply (rows_have_one_cell_per_coordinate Fixtures.two_by_two
           ["A"; "B"; "A"] "key" "travelDuration" "driving" Fixtures.warm
           _ (get_matrix Fixtures.two_by_two ["A"; "B"; "A"] "key"
                "travelDuration" "driving" Fixtures.warm).2).
  vm_compute. reflexivity.
Defined.

End DistanceMatrixMore.

(** * More facts about Address.py *)

Module AddressMore.
Import Address Resolve.

Section OneRecord.
Variable net : Network.

(** [geocode] writes the metadata and the two coordinates, nothing else. *)
Lemma geocode_frame s name :
  name ≠ __info → name ≠ __latitude → name ≠ __longitude →
  self (geocode net s).2 !! name = self s !! name.
Proof.
  intros Hi Hlat Hlon.
  rewrite AddressFacts.geocode_unfold. unfold geocode_steps.
  destruct (get_geocode_json net s) as [r s1] eqn:Hget.
  apply AddressFacts.get_geocode_json_effect in Hget as (Hself & _ & _).
  repeat case_match; simplify_eq; simpl; rewrite ?Hself;
    by rewrite ?lookup_insert_ne by done.
Qed.

Lemma reachable_built s :
  reachable net s →
  ∃ street city state country zipcode,
    built_with street city state country zipcode s.
Proof.
  induction 1 as [street city state country zipcode tr
                 |s _ (street & city & state & country & zipcode & IH)];
    exists street, city, state, country, zipcode.
  - by repeat split.
  - destruct IH as (H1 & H2 & H3 & H4 & H5).
    unfold built_with. by rewrite !geocode_frame.
Qed.

Lemma get_geocode_json_built street city state country zipcode s :
  built_with street city state country zipcode s →
  get_geocode_json net s =
  (answer (net (trace s) (search_request street city state country zipcode)),
   {| self := self s;
      trace := trace s
               ++ [search_request street city state country zipcode] |}).
Proof.
  intros (H1 & H2 & H3 & H4 & H5).
  unfold get_geocode_json, Address.street, Address.city, Address.state,
    Address.country, Address.zipcode, getattr, mbind, M_bind.
  by rewrite H1, H2, H3, H4, H5.
Qed.

Variable py_str : value → string.

(** What [__str__] returns, read off the five attributes. *)
Lemma str_result s :
  (AddressList.__str__ py_str s).1 =
  match self s !! __street, self s !! __city, self s !! __state,
        self s !! __country, self s !! __zipcode with
  | Some a, Some b, Some c, Some d, Some e =>
      Ok (py_str a +:+ ", " +:+ py_str b +:+ ", " +:+ py_str c
          +:+ ", " +:+ py_str d +:+ ", " +:+ py_str e)
  | _, _, _, _, _ => Raise AttributeError
  end.
Proof.
  unfold AddressList.__str__, getattr, mbind, M_bind.
  destruct (self s !! __street); [|done].
  destruct (self s !! __city); [|done].
  destruct (self s !! __state); [|done].
  destruct (self s !! __country); [|done].
  by destruct (self s !! __zipcode).
Qed.

(** X9: whatever the service answers and however the call ends, [geocode]
    leaves the five address fields alone: [street], [city], [state],
    [country], [zipcode] and [__str__] return after the call what they
    returned before it. *)
Theorem geocode_keeps_the_address s :
  let s' := (geocode net s).2 in
  (street s').1 = (street s).1 ∧
  (city s').1 = (city s).1 ∧
  (state s').1 = (state s).1 ∧
  (country s').1 = (country s).1 ∧
  (zipcode s').1 = (zipcode s).1 ∧
  (AddressList.__str__ py_str s').1 = (AddressList.__str__ py_str s).1.
Proof.
  cbv zeta. rewrite !str_result.
  unfold street, city, state, country, zipcode, getattr.
  rewrite !geocode_frame by done.
  repeat split; by repeat case_match.
Qed.

(** X10: the service lists longitude first; after a call that stored the
    pair, [coordinates] returns latitude first. *)
Theorem coordinates_latitude_first s body s1 lon lat s2 :
  unresolved s →
  get_geocode_json net s = (Ok body, s1) →
  coordinate_pair body = Ok (lon, lat) →
  geocode net s = (Ok tt, s2) →
  coordinates s2 = (Ok (lat, lon), s2).
Proof.
  intros (old & Hold & Ht) Hget Hpair.
  rewrite AddressFacts.geocode_unfold. unfold geocode_steps.
  rewrite Hold, Ht, Hget, Hpair.
  destruct (out_of_range lat 90) as [[]|]; try done.
  destruct (out_of_range lon 180) as [[]|]; try done.
  intros [= <-].
  unfold coordinates, getattr, mbind, M_bind. simpl.
  rewrite (lookup_insert_ne _ __longitude __latitude) by done.
  rewrite lookup_insert_eq. simpl. by rewrite lookup_insert_eq.
Qed.

(** X11: a record that a program can hold and whose metadata is empty
    sends exactly one request per call of [geocode], to the search address
    and with the five fields it was built with, however the call ends. *)
Theorem unresolved_record_sends_one_request s :
  reachable net s →
  unresolved s →
  ∃ street' city' state' country' zipcode',
    built_with street' city' state' country' zipcode' s ∧
    trace (geocode net s).2
      = trace s ++ [search_request street' city' state' country' zipcode'].
Proof.
  intros Hs (old & Hold & Ht).
  destruct (reachable_built s Hs)
    as (street' & city' & state' & country' & zipcode' & Hbuilt).
  exists street', city', state', country', zipcode'. split; [done|].
  rewrite AddressFacts.geocode_unfold. unfold geocode_steps.
  rewrite Hold, Ht, (get_geocode_json_built _ _ _ _ _ _ Hbuilt).
  unfold answer. repeat case_match; simplify_eq; done.
Qed.

(** X12: when the service fails, [geocode] raises [RequestException] and
    leaves every attribute of the record as it was, so that the next call
    asks the service again. *)
Theorem service_failure_is_retried s street' city' state' country' zipcode' :
  unresolved s →
  built_with street' city' state' country' zipcode' s →
  net (trace s) (search_request street' city' state' country' zipcode')
    = None →
  ∃ s1,
    geocode net s = (Raise RequestException, s1) ∧
    self s1 = self s ∧
    trace s1
      = trace s ++ [search_request street' city' state' country' zipcode'] ∧
    trace (geocode net s1).2
      = trace s1 ++ [search_request street' city' state' country' zipcode'].
Proof.
  intros (old & Hold & Ht) Hbuilt Hdown.
  eexists. split_and!.
  - rewrite AddressFacts.geocode_unfold. unfold geocode_steps.
    rewrite Hold, Ht, (get_geocode_json_built _ _ _ _ _ _ Hbuilt), Hdown.
    reflexivity.
  - done.
  - done.
  - rewrite AddressFacts.geocode_unfold. unfold geocode_steps. simpl.
    rewrite Hold, Ht.
    rewrite (get_geocode_json_built street' city' state' country' zipcode')
      by done.
    unfold answer. repeat case_match; simplify_eq; done.
Qed.

(** X13: a body that is not empty but from which no pair can be read, such
    as the answer with an empty list of features for an address that is not
    found, is stored all the same.  [geocode] raises, and from then on the
    record passes for resolved: every later call returns at once without
    asking the service, and the coordinates stay NaN. *)
Theorem unusable_answer_is_kept s body s1 e :
  reachable net s →
  unresolved s →
  get_geocode_json net s = (Ok body, s1) →
  truthy body = true →
  coordinate_pair body = Raise e →
  ∃ s2,
    geocode net s = (Raise e, s2) ∧
    self s2 !! __info = Some body ∧
    self s2 !! __latitude = Some (VNum NaN) ∧
    self s2 !! __longitude = Some (VNum NaN) ∧
    ∀ n, geocode_times net n s2 = (Ok tt, s2).
Proof.
  intros Hs (old & Hold & Ht) Hget Hbody Hpair.
  apply AddressFacts.reachable_inv in Hs
    as [_ (vi & vlat & vlon & Hi & Hlat & Hlon & Hnan & _ & _)].
  simplify_eq. destruct (Hnan Ht) as [-> ->].
  exists (set_info body s1).
  pose proof Hget as Heff.
  apply AddressFacts.get_geocode_json_effect in Heff as (Hself & _ & _).
  assert (self (set_info body s1) !! __info = Some body) as Hinfo
    by (simpl; by rewrite lookup_insert_eq).
  split_and!.
  - rewrite AddressFacts.geocode_unfold. unfold geocode_steps.
    by rewrite Hi, Ht, Hget, Hpair.
  - done.
  - simpl. by rewrite Hself, lookup_insert_ne.
  - simpl. by rewrite Hself, lookup_insert_ne.
  - intros n. by apply (AddressFacts.geocode_times_noop net _ body).
Qed.

End OneRecord.

Lemma coordinates_latitude_first_witness :
  let s2 := (geocode Fixtures.boston Fixtures.fresh).2 in
  coordinates s2
  = (Ok (VNum (Fin (4236 # 100)), VNum (Fin (-7106 # 100))), s2).
Proof.
  apply (coordinates_latitude_first Fixtures.boston Fixtures.fresh
           (Fixtures.geocoder_body (VNum (Fin (-7106 # 100)))
              (VNum (Fin (4236 # 100))))
           (get_geocode_json Fixtures.boston Fixtures.fresh).2).
  - exists (VDict []). split; reflexivity.
  - vm_compute. reflexivity.
  - reflexivity.
  - vm_compute. reflexivity.
Defined.

Lemma unresolved_record_sends_one_request_witness :
  ∃ street' city' state' country' zipcode',
    built_with street' city' state' country' zipcode' Fixtures.fresh ∧
    trace (geocode MoreFixtures.not_found Fixtures.fresh).2
      = trace Fixtures.fresh
        ++ [search_request street' city' state' country' zipcode'].
Proof.
  apply (unresolved_record_sends_one_request MoreFixtures.not_found).
  - apply reach_init.
  - exists (VDict []). split; reflexivity.
Defined.

Lemma service_failure_is_retried_witness :
  ∃ s1,
    geocode MoreFixtures.offline Fixtures.fresh
      = (Raise RequestException, s1) ∧
    self s1 = self Fixtures.fresh ∧
    trace s1
      = trace Fixtures.fresh
        ++ [search_request "1 Main St" "Boston" "MA" "USA" "02101"] ∧
    trace (geocode MoreFixtures.offline s1).2
      = trace s1 ++ [search_request "1 Main St" "Boston" "MA" "USA" "02101"].
Proof.
  apply (service_failure_is_retried MoreFixtures.offline).
  - exists (VDict []). split; reflexivity.
  - repeat split.
  - reflexivity.
Defined.

Lemma unusable_answer_is_kept_witness :
  ∃ s2,
    geocode MoreFixtures.not_found Fixtures.fresh = (Raise IndexError, s2) ∧
    self s2 !! __info = Some MoreFixtures.not_found_body ∧
    self s2 !! __latitude = Some (VNum NaN) ∧
    self s2 !! __longitude = Some (VNum NaN) ∧
    ∀ n, geocode_times MoreFixtures.not_found n s2 = (Ok tt, s2).
Proof.
  apply (unusable_answer_is_kept MoreFixtures.not_found Fixtures.fresh
           MoreFixtures.not_found_body
           (get_geocode_json MoreFixtures.not_found Fixtures.fresh).2).
  - apply reach_init.
  - exists (VDict []). split; reflexivity.
  - vm_compute. reflexivity.
  - reflexivity.
  - reflexivity.
Defined.

End AddressMore.

(** * Facts about Address.get_geocodes *)

Module AddressListFacts.
Import AddressList.

Section Batch.
Variable py_str : value → string.
Variable net : Network.

Lemma write_back address o (s : St) :
  heap s !! address = Some o →
  {| heap := <[address := o]> (heap s); trace := trace s |} = s.
Proof. intros Ho. destruct s as [h tr]. simpl in *. by rewrite insert_id. Qed.

(** Reading an attribute through a property changes nothing. *)
Lemma on_getattr address name o s :
  heap s !! address = Some o →
  on address (Address.getattr name) s =
  (match o !! name with
   | Some v => Ok v
   | None => Raise AttributeError
   end, s).
Proof.
  intros Ho. unfold on, Address.getattr. rewrite Ho. simpl.
  destruct (o !! name); simpl; by rewrite write_back.
Qed.

(** On a record with metadata [geocode] changes nothing. *)
Lemma on_geocode_resolved address s :
  has_metadata address s →
  on address (Address.geocode net) s = (Ok tt, s).
Proof.
  intros (o & v & Ho & Hv & Ht). unfold on. rewrite Ho.
  rewrite (AddressFacts.geocode_noop net _ v) by done. simpl.
  by rewrite write_back.
Qed.

(** A method of one record leaves the other records alone. *)
Lemma on_other {A} address other (method : M Address.St A) s :
  other ≠ address →
  heap (on address method s).2 !! other = heap s !! other.
Proof.
  intros Hne. unfold on. destruct (heap s !! address); [|done].
  simpl. by rewrite lookup_insert_ne.
Qed.

(** [geocode] does not touch a record that has metadata, whichever record
    it is called on. *)
Lemma on_geocode_keeps address other o v s :
  heap s !! other = Some o →
  o !! Address.__info = Some v → truthy v = true →
  heap (on address (Address.geocode net) s).2 !! other = Some o.
Proof.
  intros Ho Hv Ht. destruct (decide (other = address)) as [->|Hne].
  - rewrite on_geocode_resolved; [done|]. by exists o, v.
  - by rewrite on_other.
Qed.

(** One pass of the loop body, on a record where [geocode] returns. *)
Lemma loop_step address addresses geocodes s s1 :
  on address (Address.geocode net) s = (Ok tt, s1) →
  ∃ o v,
    heap s1 !! address = Some o ∧
    o !! Address.__info = Some v ∧ truthy v = true ∧
    get_geocodes_loop py_str net (address :: addresses) geocodes s =
    match o !! Address.__latitude, o !! Address.__longitude with
    | Some lat, Some lon =>
        get_geocodes_loop py_str net addresses
          (geocodes ++ [coordinate_text py_str lat lon]) s1
    | _, _ => (Raise AttributeError, s1)
    end.
Proof.
  intros Hgeo. pose proof Hgeo as Hrun. unfold on in Hrun.
  destruct (heap s !! address) as [o0|] eqn:Ho0; [|done].
  destruct (Address.geocode net {| Address.self := o0;
                                   Address.trace := trace s |})
    as [r s0] eqn:Hcall.
  simpl in Hrun. injection Hrun as -> <-.
  destruct (AddressFacts.geocode_returns_with_metadata net _ _ Hcall)
    as (v & Hv & Ht).
  exists (Address.self s0), v. simpl. rewrite lookup_insert_eq.
  split_and!; [done|done|done|].
  unfold mbind at 1, M_bind at 1. rewrite Hgeo.
  unfold Address.latitude, Address.longitude.
  unfold mbind at 1, M_bind at 1.
  rewrite (on_getattr _ _ (Address.self s0)) by (simpl; by rewrite lookup_insert_eq).
  destruct (Address.self s0 !! Address.__latitude); [|done].
  unfold mbind at 1, M_bind at 1.
  rewrite (on_getattr _ _ (Address.self s0)) by (simpl; by rewrite lookup_insert_eq).
  by destruct (Address.self s0 !! Address.__longitude).
Qed.

(** A record with metadata is the same record after the loop, however the
    loop ends. *)
Lemma loop_keeps other o v addresses : ∀ geocodes s,
  heap s !! other = Some o →
  o !! Address.__info = Some v → truthy v = true →
  heap (get_geocodes_loop py_str net addresses geocodes s).2 !! other = Some o.
Proof.
  induction addresses as [|address addresses IH]; intros geocodes s Ho Hv Ht;
    [done|].
  pose proof (on_geocode_keeps address other o v s Ho Hv Ht) as Hkept.
  destruct (on address (Address.geocode net) s) as [[[]|e] s1] eqn:Hgeo.
  - destruct (loop_step address addresses geocodes s s1 Hgeo)
      as (o1 & v1 & _ & _ & _ & ->).
    simpl in Hkept. repeat case_match; try done. by apply IH.
  - cbn [get_geocodes_loop]. unfold mbind, M_bind. by rewrite Hgeo.
Qed.

Lemma loop_results addresses : ∀ geocodes s rs s',
  get_geocodes_loop py_str net addresses geocodes s = (Ok rs, s') →
  ∃ texts,
    rs = geocodes ++ texts ∧
    length texts = length addresses ∧
    ∀ i address, addresses !! i = Some address →
      ∃ o v lat lon,
        heap s' !! address = Some o ∧
        o !! Address.__info = Some v ∧ truthy v = true ∧
        o !! Address.__latitude = Some lat ∧
        o !! Address.__longitude = Some lon ∧
        texts !! i = Some (coordinate_text py_str lat lon).
Proof.
  induction addresses as [|address addresses IH]; intros geocodes s rs s' Hrun.
  - injection Hrun as <- <-. exists []. by rewrite app_nil_r.
  - destruct (on address (Address.geocode net) s) as [[[]|e] s1] eqn:Hgeo.
    2:{ cbn [get_geocodes_loop] in Hrun. unfold mbind, M_bind in Hrun.
        by rewrite Hgeo in Hrun. }
    destruct (loop_step address addresses geocodes s s1 Hgeo)
      as (o & v & Ho & Hv & Ht & Hstep).
    rewrite Hstep in Hrun.
    destruct (o !! Address.__latitude) as [lat|] eqn:Hlat; [|done].
    destruct (o !! Address.__longitude) as [lon|] eqn:Hlon; [|done].
    destruct (IH _ _ _ _ Hrun) as (texts & -> & Hlen & Hcells).
    exists (coordinate_text py_str lat lon :: texts).
    split_and!.
    + by rewrite <- app_assoc.
    + simpl. by rewrite Hlen.
    + intros [|i] a Ha; simpl in Ha.
      * simplify_eq. exists o, v, lat, lon. split_and!; try done.
        pose proof (loop_keeps a o v addresses
                      (geocodes ++ [coordinate_text py_str lat lon]) s1
                      Ho Hv Ht) as Hkept.
        by rewrite Hrun in Hkept.
      * by apply Hcells.
Qed.

Lemma loop_again addresses : ∀ geocodes s rs s',
  get_geocodes_loop py_str net addresses geocodes s = (Ok rs, s') →
  get_geocodes_loop py_str net addresses geocodes s' = (Ok rs, s').
Proof.
  induction addresses as [|address addresses IH]; intros geocodes s rs s' Hrun.
  - by injection Hrun as <- <-.
  - destruct (on address (Address.geocode net) s) as [[[]|e] s1] eqn:Hgeo.
    2:{ cbn [get_geocodes_loop] in Hrun. unfold mbind, M_bind in Hrun.
        by rewrite Hgeo in Hrun. }
    destruct (loop_step address addresses geocodes s s1 Hgeo)
      as (o & v & Ho & Hv & Ht & Hstep).
    rewrite Hstep in Hrun.
    destruct (o !! Address.__latitude) as [lat|] eqn:Hlat; [|done].
    destruct (o !! Address.__longitude) as [lon|] eqn:Hlon; [|done].
    pose proof (loop_keeps address o v addresses
                  (geocodes ++ [coordinate_text py_str lat lon]) s1
                  Ho Hv Ht) as Hkept.
    rewrite Hrun in Hkept. simpl in Hkept.
    assert (on address (Address.geocode net) s' = (Ok tt, s')) as Hnoop
      by (apply on_geocode_resolved; by exists o, v).
    destruct (loop_step address addresses geocodes s' s' Hnoop)
      as (o' & v' & Ho' & _ & _ & ->).
    simplify_eq. rewrite Hlat, Hlon. by apply (IH _ s1).
Qed.

Lemma on_geocode_trace address s :
  ∃ reqs,
    trace (on address (Address.geocode net) s).2 = trace s ++ reqs ∧
    length reqs ≤ 1.
Proof.
  unfold on. destruct (heap s !! address) as [o|].
  - simpl.
    destruct (Address.geocode net {| Address.self := o;
                                     Address.trace := trace s |})
      as [r s0] eqn:Hcall.
    by apply AddressFacts.geocode_trace in Hcall.
  - exists []. rewrite app_nil_r. simpl. split; [done|lia].
Qed.

(** X14: when [get_geocodes] returns, it returns one text per listed
    address, in the order of the list, and the text at a position is
    [str(latitude) + ", " + str(longitude)] of the record listed there,
    latitude first; every listed record then has metadata. *)
Theorem get_geocodes_in_order addresses s rs s' :
  get_geocodes py_str net addresses s = (Ok rs, s') →
  length rs = length addresses ∧
  ∀ i address, addresses !! i = Some address →
    ∃ o lat lon,
      heap s' !! address = Some o ∧
      has_metadata address s' ∧
      o !! Address.__latitude = Some lat ∧
      o !! Address.__longitude = Some lon ∧
      rs !! i = Some (py_str lat +:+ ", " +:+ py_str lon).
Proof.
  intros Hrun. apply loop_results in Hrun as (texts & -> & Hlen & Hcells).
  split; [done|]. intros i address Hi.
  destruct (Hcells i address Hi) as (o & v & lat & lon & Ho & Hv & Ht & Hlat
                                     & Hlon & Htext).
  exists o, lat, lon. split_and!; try done. by exists o, v.
Qed.

(** X15: a second [get_geocodes] on the same list returns the same texts
    and changes nothing: no record is touched and no request is sent. *)
Theorem get_geocodes_twice addresses s rs s' :
  get_geocodes py_str net addresses s = (Ok rs, s') →
  get_geocodes py_str net addresses s' = (Ok rs, s').
Proof. apply loop_again. Qed.

(** X16: however it ends, [get_geocodes] sends at most one request per
    listed address. *)
Theorem get_geocodes_requests addresses s :
  ∃ reqs,
    trace (get_geocodes py_str net addresses s).2 = trace s ++ reqs ∧
    length reqs ≤ length addresses.
Proof.
  unfold get_geocodes. generalize (@nil string).
  revert s. induction addresses as [|address addresses IH]; intros s geocodes.
  - exists []. rewrite app_nil_r. simpl. split; [done|lia].
  - destruct (on_geocode_trace address s) as (r1 & Htr1 & Hlen1).
    destruct (on address (Address.geocode net) s) as [[[]|e] s1] eqn:Hgeo.
    + destruct (loop_step address addresses geocodes s s1 Hgeo)
        as (o & v & _ & _ & _ & ->).
      simpl in Htr1.
      destruct (o !! Address.__latitude) as [lat|];
        [destruct (o !! Address.__longitude) as [lon|]|].
      * destruct (IH s1 (geocodes ++ [coordinate_text py_str lat lon]))
          as (r2 & -> & Hlen2).
        exists (r1 ++ r2). rewrite Htr1, <- app_assoc, length_app.
        split; [done|]. simpl. lia.
      * exists r1. simpl. split; [done|lia].
      * exists r1. simpl. split; [done|lia].
    + cbn [get_geocodes_loop]. unfold mbind, M_bind. rewrite Hgeo.
      exists r1. simpl in *. split; [done|lia].
Qed.

(** X17: records that pass for resolved with NaN coordinates make
    [get_geocodes] return normally with the text of two NaNs for each of
    them; no request is sent and nothing changes. *)
Theorem get_geocodes_without_coordinates addresses s :
  Forall (λ address, kept_without_coordinates address s) addresses →
  get_geocodes py_str net addresses s
  = (Ok (replicate (length addresses)
           (py_str (VNum NaN) +:+ ", " +:+ py_str (VNum NaN))), s).
Proof.
  unfold get_geocodes.
  change (replicate (length addresses)
            (py_str (VNum NaN) +:+ ", " +:+ py_str (VNum NaN)))
    with ([] ++ replicate (length addresses)
                  (py_str (VNum NaN) +:+ ", " +:+ py_str (VNum NaN))).
  generalize (@nil string).
  induction addresses as [|address addresses IH]; intros geocodes Hall.
  - simpl. by rewrite app_nil_r.
  - apply Forall_cons in Hall as [(o & v & Ho & Hv & Ht & Hlat & Hlon) Hall].
    assert (on address (Address.geocode net) s = (Ok tt, s)) as Hnoop
      by (apply on_geocode_resolved; by exists o, v).
    destruct (loop_step address addresses geocodes s s Hnoop)
      as (o' & v' & Ho' & _ & _ & ->).
    simplify_eq. rewrite Hlat, Hlon, (IH _ Hall).
    simpl. by rewrite <- app_assoc.
Qed.

Lemma loop_app before after : ∀ geocodes s,
  get_geocodes_loop py_str net (before ++ after) geocodes s =
  match get_geocodes_loop py_str net before geocodes s with
  | (Ok rs, s1) => get_geocodes_loop py_str net after rs s1
  | (Raise e, s1) => (Raise e, s1)
  end.
Proof.
  induction before as [|address before IH]; intros geocodes s; [done|].
  rewrite <- app_comm_cons. cbn [get_geocodes_loop].
  unfold mbind, M_bind.
  destruct (on address (Address.geocode net) s) as [[[]|e] s1]; [|done].
  destruct (on address Address.latitude s1) as [[lat|e] s2]; [|done].
  destruct (on address Address.longitude s2) as [[lon|e] s3]; [|done].
  apply IH.
Qed.

(** X18: when [geocode] raises for one listed address, [get_geocodes]
    raises the same exception and hands back no texts at all, while the
    records listed before it keep their metadata and the addresses listed
    after it are not asked for. *)
Theorem get_geocodes_fails_as_a_whole before address after s rs s1 e s2 :
  get_geocodes py_str net before s = (Ok rs, s1) →
  on address (Address.geocode net) s1 = (Raise e, s2) →
  get_geocodes py_str net (before ++ address :: after) s = (Raise e, s2) ∧
  ∀ earlier, earlier ∈ before → has_metadata earlier s2.
Proof.
  intros Hbefore Hraise. split.
  - unfold get_geocodes in *. rewrite loop_app, Hbefore.
    cbn [get_geocodes_loop]. unfold mbind, M_bind. by rewrite Hraise.
  - intros earlier Hin.
    apply list_elem_of_lookup in Hin as [i Hi].
    apply loop_results in Hbefore as (texts & _ & _ & Hcells).
    destruct (Hcells i earlier Hi) as (o & v & _ & _ & Ho & Hv & Ht & _).
    exists o, v. split_and!; [|done|done].
    pose proof (on_geocode_keeps address earlier o v s1 Ho Hv Ht) as Hkept.
    by rewrite Hraise in Hkept.
Qed.

End Batch.

Lemma get_geocodes_in_order_witness :
  let run := get_geocodes MoreFixtures.str_stub Fixtures.boston [0; 1; 0]
               MoreFixtures.book in
  length ["?, ?"; "?, ?"; "?, ?"] = length [0; 1; 0] ∧
  ∀ i address, [0; 1; 0] !! i = Some address →
    ∃ o lat lon,
      heap run.2 !! address = Some o ∧
      has_metadata address run.2 ∧
      o !! Address.__latitude = Some lat ∧
      o !! Address.__longitude = Some lon ∧
      ["?, ?"; "?, ?"; "?, ?"] !! i
        = Some (MoreFixtures.str_stub lat +:+ ", " +:+ MoreFixtures.str_stub lon).
Proof.
  apply (get_geocodes_in_order MoreFixtures.str_stub Fixtures.boston
           [0; 1; 0] MoreFixtures.book).
  vm_compute. reflexivity.
Defined.

Lemma get_geocodes_twice_witness :
  let run := get_geocodes MoreFixtures.str_stub Fixtures.boston [0; 1; 0]
               MoreFixtures.book in
  get_geocodes MoreFixtures.str_stub Fixtures.boston [0; 1; 0] run.2
  = (Ok ["?, ?"; "?, ?"; "?, ?"], run.2).
Proof.
  apply (get_geocodes_twice MoreFixtures.str_stub Fixtures.boston [0; 1; 0]
           MoreFixtures.book).
  vm_compute. reflexivity.
Defined.

Lemma get_geocodes_without_coordinates_witness :
  let s := (get_geocodes MoreFixtures.str_stub MoreFixtures.not_found [0]
              MoreFixtures.book).2 in
  get_geocodes MoreFixtures.str_stub Fixtures.boston [0; 0] s
  = (Ok (replicate (length [0; 0])
           (MoreFixtures.str_stub (VNum NaN) +:+ ", "
            +:+ MoreFixtures.str_stub (VNum NaN))), s).
Proof.
  apply (get_geocodes_without_coordinates MoreFixtures.str_stub
           Fixtures.boston [0; 0]).
  assert (kept_without_coordinates 0
            (get_geocodes MoreFixtures.str_stub MoreFixtures.not_found [0]
               MoreFixtures.book).2) as Hkept.
  { exists (<[Address.__info := MoreFixtures.not_found_body]>
              (Address.__init__ "1 Main St" "Boston" "MA" "USA" "02101")),
      MoreFixtures.not_found_body.
    split_and!; vm_compute; reflexivity. }
  by repeat constructor.
Defined.

Lemma get_geocodes_fails_as_a_whole_witness :
  let s1 := (get_geocodes MoreFixtures.str_stub MoreFixtures.second_not_found
               [0] MoreFixtures.book).2 in
  let s2 := (on 1 (Address.geocode MoreFixtures.second_not_found) s1).2 in
  get_geocodes MoreFixtures.str_stub MoreFixtures.second_not_found
    ([0] ++ 1 :: [0]) MoreFixtures.book = (Raise IndexError, s2) ∧
  ∀ earlier, earlier ∈ [0] → has_metadata earlier s2.
Proof.
  apply (get_geocodes_fails_as_a_whole MoreFixtures.str_stub
           MoreFixtures.second_not_found [0] 1 [0] MoreFixtures.book
           ["?, ?"]
           (get_geocodes MoreFixtures.str_stub MoreFixtures.second_not_found
              [0] MoreFixtures.book).2
           IndexError).
  - vm_compute. reflexivity.
  - vm_compute. reflexivity.
Defined.

End AddressListFacts.

(** * Facts about the distance-matrix class with lists held by reference *)

Module ByReferenceFacts.
Import DistanceMatrix ByReference.

Section Calls.
Variable net : Network.

(** [__request_matrix], statement by statement. *)
Lemma request_unfold geocodes api_key travelMode s :
  ByReference.__request_matrix net geocodes api_key travelMode s =
  let counted :=
    {| lists := lists s; held := held s; cls := Session.counted (cls s) |} in
  match condition1_of (__response (cls s)) with
  | Raise e => (Raise e, counted)
  | Ok condition1 =>
      match lists s !! held s, lists s !! geocodes with
      | Some list1, Some list2 =>
          if condition1 || negb (__identical_list list1 list2) then
            let request := matrix_request list2 api_key travelMode in
            let sent response :=
              {| lists := lists s;
                 held := geocodes;
                 cls :=
                   {| __response := response;
                      __last_requested := list2;
                      __number_of_requests_saved :=
                        __number_of_requests_saved (cls s);
                      __number_of_requests_made :=
                        __number_of_requests_made (cls s) + 1;
                      trace := trace (cls s) ++ [request];
                      stdout := stdout (cls s) |} |} in
            match net (trace (cls s)) request with
            | None => (Raise RequestException, sent (__response (cls s)))
            | Some body => (Ok body, sent body)
            end
          else
            (Ok (__response (cls s)),
             {| lists := lists s; held := held s;
                cls := Session.served_from_cache (cls s) |})
      | _, _ => (Raise TypeError, counted)
      end
  end.
Proof.
  unfold ByReference.__request_matrix, on_class, get_held, set_held, contents,
    get, set_number_of_requests_made, set_number_of_requests_saved,
    set_last_requested, set_response, requests_get_json, lift, mbind, M_bind.
  simpl.
  destruct (condition1_of (__response (cls s))) as [c1|e]; simpl;
    [|reflexivity].
  destruct (lists s !! held s) as [list1|]; simpl; [|reflexivity].
  destruct (lists s !! geocodes) as [list2|]; simpl; [|reflexivity].
  destruct (c1 || negb (__identical_list list1 list2)); simpl; [|reflexivity].
  destruct (net (trace (cls s)) _); reflexivity.
Qed.

(** After the request step, [get_matrix] changes at most the output. *)
Lemma get_matrix_after geocodes api_key key travelMode s :
  recognized key = true →
  let s0 := (ByReference.__request_matrix net geocodes api_key travelMode s).2 in
  let s1 := (ByReference.get_matrix net geocodes api_key key travelMode s).2 in
  lists s1 = lists s0 ∧ held s1 = held s0 ∧ same_cache (cls s1) (cls s0).
Proof.
  intros Hk. cbv zeta. unfold ByReference.get_matrix. rewrite Hk. simpl.
  unfold mbind, M_bind.
  destruct (ByReference.__request_matrix net geocodes api_key travelMode s)
    as [[response|e] s0]; [|done].
  unfold contents. destruct (lists s0 !! geocodes) as [list|]; [|done].
  unfold on_class.
  pose proof (DistanceMatrixFacts.build_matrix_same_cache list response
                (cls s0)) as Hsame.
  destruct (__build_matrix list response (cls s0)) as [[grid|e] c1]; [|done].
  simpl in *. unfold lift. by destruct (project_rows key grid []).
Qed.

(** What a call that sent a request and was answered leaves behind: the
    class holds the list object it was given and the body it received. *)
Lemma answered_call_stores geocodes list api_key key travelMode s body :
  recognized key = true →
  lists s !! geocodes = Some list →
  let s1 := (ByReference.get_matrix net geocodes api_key key travelMode s).2 in
  trace (cls s1)
    = trace (cls s) ++ [matrix_request list api_key travelMode] →
  net (trace (cls s)) (matrix_request list api_key travelMode) = Some body →
  lists s1 = lists s ∧ held s1 = geocodes ∧
  __response (cls s1) = body ∧
  __number_of_requests_saved (cls s1) = __number_of_requests_saved (cls s).
Proof.
  intros Hk Hlist s1.
  destruct (get_matrix_after geocodes api_key key travelMode s Hk)
    as (Hlists & Hheld & Hresp & _ & Hsaved & _ & Htrace).
  fold s1 in Hlists, Hheld, Hresp, Hsaved, Htrace.
  rewrite Hlists, Hheld, Hresp, Hsaved, Htrace.
  clear Hlists Hheld Hresp Hsaved Htrace s1.
  rewrite request_unfold. cbv zeta. rewrite Hlist.
  assert (∀ tr (r : request), tr ≠ tr ++ [r]) as Hgrow.
  { intros tr r Heq. apply (f_equal length) in Heq.
    rewrite length_app in Heq. simpl in Heq. lia. }
  destruct (condition1_of (__response (cls s))) as [c1|e];
    [|simpl; intros Heq; by apply Hgrow in Heq].
  destruct (lists s !! held s) as [list1|];
    [|simpl; intros Heq; by apply Hgrow in Heq].
  destruct (c1 || negb (__identical_list list1 list));
    [|simpl; intros Heq; by apply Hgrow in Heq].
  intros _ ->. done.
Qed.

End Calls.

Section TwoCalls.
Variables net net' : Network.

(** C1 (the code departs from the claim): the class keeps the caller's
    list object, not a copy of it.  After a call that sent a request for a
    list and was answered with status code 200, let the caller change that
    list in place in any way and pass it again: the reuse test compares the
    list with itself, no request is sent, the response fetched for the old
    coordinates is handed back and one more request counts as saved,
    although the coordinates may now differ as a set from the ones that
    were requested. *)
Theorem changed_list_is_served_from_cache geocodes before api_key key
    travelMode s body changed api_key' key' travelMode' :
  recognized key = true →
  recognized key' = true →
  lists s !! geocodes = Some before →
  let s1 := (ByReference.get_matrix net geocodes api_key key travelMode s).2 in
  trace (cls s1)
    = trace (cls s) ++ [matrix_request before api_key travelMode] →
  net (trace (cls s)) (matrix_request before api_key travelMode)
    = Some body →
  success_body body →
  let s2 := (ByReference.get_matrix net' geocodes api_key' key' travelMode'
               (change_list geocodes changed s1)).2 in
  trace (cls s2) = trace (cls s1) ∧
  __response (cls s2) = body ∧
  (ByReference.__request_matrix net' geocodes api_key' travelMode'
     (change_list geocodes changed s1)).1 = Ok body ∧
  __number_of_requests_saved (cls s2)
    = __number_of_requests_saved (cls s1) + 1.
Proof.
  intros Hk Hk' Hlist s1 Hsent Hanswer Hok s2.
  destruct (answered_call_stores net geocodes before api_key key travelMode s
              body Hk Hlist Hsent Hanswer) as (Hlists & Hheld & Hresp & _).
  fold s1 in Hlists, Hheld, Hresp.
  destruct (get_matrix_after net' geocodes api_key' key' travelMode'
              (change_list geocodes changed s1) Hk')
    as (_ & _ & Hresp2 & _ & Hsaved2 & _ & Htrace2).
  fold s2 in Hresp2, Hsaved2, Htrace2.
  rewrite Hresp2, Hsaved2, Htrace2. clear Hresp2 Hsaved2 Htrace2.
  rewrite request_unfold. cbv zeta. simpl. rewrite Hheld, Hresp.
  rewrite lookup_insert_eq.
  assert (condition1_of body = Ok false) as ->.
  { apply (DistanceMatrixMore.condition1_success
             {| __response := body; __last_requested := [];
                __number_of_requests_saved := 0;
                __number_of_requests_made := 0;
                trace := []; stdout := [] |}). exact Hok. }
  assert (__identical_list changed changed = true) as ->
    by by apply DistanceMatrixFacts.identical_list_spec.
  simpl. by rewrite Hresp.
Qed.

(** X20: after a call that sent a request for one list and was answered
    with status code 200, a call for a second list, no list having been
    changed in between, sends nothing when the two lists have the same
    members, in whatever order and however often listed, handing back the
    stored body and counting one more saved request; and it sends exactly
    one request, for the second list, when the members differ. *)
Theorem second_call_compares_members geocodes1 list1 geocodes2 list2 api_key
    key travelMode s body api_key' key' travelMode' :
  recognized key = true →
  recognized key' = true →
  lists s !! geocodes1 = Some list1 →
  lists s !! geocodes2 = Some list2 →
  let s1 := (ByReference.get_matrix net geocodes1 api_key key travelMode s).2 in
  trace (cls s1)
    = trace (cls s) ++ [matrix_request list1 api_key travelMode] →
  net (trace (cls s)) (matrix_request list1 api_key travelMode)
    = Some body →
  success_body body →
  let s2 := (ByReference.get_matrix net' geocodes2 api_key' key' travelMode'
               s1).2 in
  ((∀ x, x ∈ list1 ↔ x ∈ list2) →
     trace (cls s2) = trace (cls s1) ∧
     __response (cls s2) = body ∧
     (ByReference.__request_matrix net' geocodes2 api_key' travelMode' s1).1
       = Ok body ∧
     __number_of_requests_saved (cls s2)
       = __number_of_requests_saved (cls s1) + 1) ∧
  (¬ (∀ x, x ∈ list1 ↔ x ∈ list2) →
     trace (cls s2)
       = trace (cls s1) ++ [matrix_request list2 api_key' travelMode'] ∧
     __number_of_requests_saved (cls s2)
       = __number_of_requests_saved (cls s1)).
Proof.
  intros Hk Hk' Hlist1 Hlist2 s1 Hsent Hanswer Hok s2.
  destruct (answered_call_stores net geocodes1 list1 api_key key travelMode s
              body Hk Hlist1 Hsent Hanswer) as (Hlists & Hheld & Hresp & _).
  fold s1 in Hlists, Hheld, Hresp.
  destruct (get_matrix_after net' geocodes2 api_key' key' travelMode' s1 Hk')
    as (_ & _ & Hresp2 & _ & Hsaved2 & _ & Htrace2).
  fold s2 in Hresp2, Hsaved2, Htrace2.
  rewrite Hresp2, Hsaved2, Htrace2. clear Hresp2 Hsaved2 Htrace2.
  rewrite request_unfold. cbv zeta. rewrite Hheld, Hlists, Hlist1, Hlist2.
  rewrite Hresp.
  assert (condition1_of body = Ok false) as ->.
  { apply (DistanceMatrixMore.condition1_success
             {| __response := body; __last_requested := [];
                __number_of_requests_saved := 0;
                __number_of_requests_made := 0;
                trace := []; stdout := [] |}). exact Hok. }
  simpl.
  destruct (__identical_list list1 list2) eqn:Hid; simpl.
  - split; [by rewrite Hresp|].
    intros Hdiff. destruct Hdiff.
    by apply DistanceMatrixMore.identical_list_members.
  - split.
    + intros Hsame.
      apply DistanceMatrixMore.identical_list_members in Hsame. congruence.
    + intros _. by destruct (net' (trace (cls s1)) _).
Qed.

(** X21: a response that is not a success is not reused.  After a call
    that sent a request and was answered with a status code other than 200,
    the next call sends exactly one request, also for the very same list,
    and counts no saved request. *)
Theorem unsuccessful_response_is_not_reused geocodes1 list1 geocodes2 list2
    api_key key travelMode s body api_key' key' travelMode' :
  recognized key = true →
  recognized key' = true →
  lists s !! geocodes1 = Some list1 →
  lists s !! geocodes2 = Some list2 →
  let s1 := (ByReference.get_matrix net geocodes1 api_key key travelMode s).2 in
  trace (cls s1)
    = trace (cls s) ++ [matrix_request list1 api_key travelMode] →
  net (trace (cls s)) (matrix_request list1 api_key travelMode)
    = Some body →
  failure_body body →
  let s2 := (ByReference.get_matrix net' geocodes2 api_key' key' travelMode'
               s1).2 in
  trace (cls s2)
    = trace (cls s1) ++ [matrix_request list2 api_key' travelMode'] ∧
  __number_of_requests_saved (cls s2) = __number_of_requests_saved (cls s1).
Proof.
  intros Hk Hk' Hlist1 Hlist2 s1 Hsent Hanswer (code & Hcode & Hnot) s2.
  destruct (answered_call_stores net geocodes1 list1 api_key key travelMode s
              body Hk Hlist1 Hsent Hanswer) as (Hlists & Hheld & Hresp & _).
  fold s1 in Hlists, Hheld, Hresp.
  destruct (get_matrix_after net' geocodes2 api_key' key' travelMode' s1 Hk')
    as (_ & _ & _ & _ & Hsaved2 & _ & Htrace2).
  fold s2 in Hsaved2, Htrace2.
  rewrite Hsaved2, Htrace2. clear Hsaved2 Htrace2.
  rewrite request_unfold. cbv zeta. rewrite Hheld, Hlists, Hlist1, Hlist2.
  rewrite Hresp.
  assert (condition1_of body = Ok true) as ->.
  { unfold condition1_of, mbind, outcome_bind.
    destruct body as [| | | | |d]; try done. cbn [py_len].
    destruct (Nat.eqb (length d) 0); [done|]. by rewrite Hcode, Hnot. }
  simpl. by destruct (net' (trace (cls s1)) _).
Qed.

End TwoCalls.

Section ByValue.
Variable net : Network.

Lemma request_as_by_value geocodes list api_key travelMode s :
  untouched s →
  lists s !! geocodes = Some list →
  let by_value :=
    DistanceMatrix.__request_matrix net list api_key travelMode (cls s) in
  let by_reference :=
    ByReference.__request_matrix net geocodes api_key travelMode s in
  by_reference.1 = by_value.1 ∧
  cls by_reference.2 = by_value.2 ∧
  lists by_reference.2 = lists s ∧
  untouched by_reference.2.
Proof.
  intros Huntouched Hlist. cbv zeta. unfold untouched in *.
  rewrite request_unfold, DistanceMatrixFacts.request_matrix_unfold.
  cbv zeta. rewrite Huntouched, Hlist.
  destruct (condition1_of (__response (cls s))) as [c1|e];
    [|simpl; split_and!; try done; exact Huntouched].
  destruct (c1 || negb (__identical_list (__last_requested (cls s)) list)).
  - destruct (net (trace (cls s)) _) as [body|]; simpl;
      split_and!; try done; exact Hlist.
  - simpl. split_and!; try done; exact Huntouched.
Qed.

(** X22: as long as no list is changed in place, the class that keeps the
    caller's list object behaves as the one that keeps a list value: a call
    returns what [DistanceMatrix.get_matrix] returns on the list's contents,
    leaves the class attributes, the log and the output as that call leaves
    them, changes no list, and the held list is again untouched. *)
Theorem by_reference_as_by_value geocodes list api_key key travelMode s :
  untouched s →
  lists s !! geocodes = Some list →
  let by_value :=
    DistanceMatrix.get_matrix net list api_key key travelMode (cls s) in
  let by_reference :=
    ByReference.get_matrix net geocodes api_key key travelMode s in
  by_reference.1 = by_value.1 ∧
  cls by_reference.2 = by_value.2 ∧
  lists by_reference.2 = lists s ∧
  untouched by_reference.2.
Proof.
  intros Huntouched Hlist. cbv zeta.
  destruct (request_as_by_value geocodes list api_key travelMode s
              Huntouched Hlist) as (Hr & Hc & Hl & Hu).
  unfold ByReference.get_matrix, DistanceMatrix.get_matrix.
  destruct (recognized key); simpl; [|done].
  unfold mbind, M_bind.
  destruct (ByReference.__request_matrix net geocodes api_key travelMode s)
    as [r s0].
  destruct (DistanceMatrix.__request_matrix net list api_key travelMode
              (cls s)) as [r' c0].
  simpl in Hr, Hc, Hl, Hu. subst r' c0.
  destruct r as [response|e]; [|done].
  unfold contents. rewrite Hl, Hlist. unfold on_class.
  pose proof (DistanceMatrixFacts.build_matrix_same_cache list response
                (cls s0)) as (_ & Hlast & _).
  destruct (__build_matrix list response (cls s0)) as [[grid|e] c2];
    simpl in *.
  - unfold lift. unfold untouched in *. simpl.
    destruct (project_rows key grid []); simpl; by rewrite Hlast.
  - unfold untouched in *. simpl. by rewrite Hlast.
Qed.

End ByValue.

(** ** The statements at concrete inputs *)

(** The caller asks for ["A", "B"], appends "C" to the same list and asks
    again. *)
Lemma changed_list_is_served_from_cache_witness :
  let s1 := (ByReference.get_matrix Fixtures.two_by_two 1 "key"
               "travelDistance" "driving" MoreFixtures.caller).2 in
  let s2 := (ByReference.get_matrix Fixtures.two_by_two 1 "key"
               "travelDistance" "driving"
               (change_list 1 ["A"; "B"; "C"] s1)).2 in
  trace (cls s2) = trace (cls s1) ∧
  __response (cls s2) = Fixtures.routes_body Fixtures.two_by_two_entries ∧
  (ByReference.__request_matrix Fixtures.two_by_two 1 "key" "driving"
     (change_list 1 ["A"; "B"; "C"] s1)).1
    = Ok (Fixtures.routes_body Fixtures.two_by_two_entries) ∧
  __number_of_requests_saved (cls s2)
    = __number_of_requests_saved (cls s1) + 1.
Proof.
  apply (changed_list_is_served_from_cache Fixtures.two_by_two
           Fixtures.two_by_two 1 ["A"; "B"] "key" "travelDistance" "driving"
           MoreFixtures.caller
           (Fixtures.routes_body Fixtures.two_by_two_entries)
           ["A"; "B"; "C"] "key" "travelDistance" "driving").
  - reflexivity.
  - reflexivity.
  - reflexivity.
  - vm_compute. reflexivity.
  - reflexivity.
  - exists (VNum (of_Z 200)). split; reflexivity.
Defined.

(** What the second call of that caller returns and sends: one row of three
    cells, read from the four entries fetched for two coordinates, and no
    request, although "C" was never asked for. *)
Example changed_list_matrix :
  let s1 := (ByReference.get_matrix Fixtures.two_by_two 1 "key"
               "travelDistance" "driving" MoreFixtures.caller).2 in
  let second := ByReference.get_matrix Fixtures.two_by_two 1 "key"
                  "travelDistance" "driving"
                  (change_list 1 ["A"; "B"; "C"] s1) in
  second.1 = Ok [[VNum (Fin 0); VNum (Fin (53 # 10)); VNum (Fin (61 # 10))]] ∧
  trace (cls second.2) = [matrix_request ["A"; "B"] "key" "driving"] ∧
  __identical_list ["A"; "B"] ["A"; "B"; "C"] = false.
Proof. vm_compute. done. Qed.

(** The same coordinates passed as a new list are fetched. *)
Example new_list_is_fetched :
  let s1 := (ByReference.get_matrix Fixtures.two_by_two 1 "key"
               "travelDistance" "driving" MoreFixtures.caller).2 in
  let second := ByReference.get_matrix Fixtures.two_by_two 2 "key"
                  "travelDistance" "driving"
                  (change_list 2 ["A"; "B"; "C"] s1) in
  trace (cls second.2)
  = [matrix_request ["A"; "B"] "key" "driving";
     matrix_request ["A"; "B"; "C"] "key" "driving"].
Proof. vm_compute. done. Qed.

Lemma second_call_compares_members_witness :
  let s1 := (ByReference.get_matrix Fixtures.two_by_two 1 "key"
               "travelDistance" "driving"
               MoreFixtures.caller_with_two_lists).2 in
  let s2 := (ByReference.get_matrix MoreFixtures.offline 2 "key"
               "travelDuration" "driving" s1).2 in
  ((∀ x, x ∈ ["A"; "B"] ↔ x ∈ ["B"; "A"]) →
     trace (cls s2) = trace (cls s1) ∧
     __response (cls s2) = Fixtures.routes_body Fixtures.two_by_two_entries ∧
     (ByReference.__request_matrix MoreFixtures.offline 2 "key" "driving"
        s1).1
       = Ok (Fixtures.routes_body Fixtures.two_by_two_entries) ∧
     __number_of_requests_saved (cls s2)
       = __number_of_requests_saved (cls s1) + 1) ∧
  (¬ (∀ x, x ∈ ["A"; "B"] ↔ x ∈ ["B"; "A"]) →
     trace (cls s2)
       = trace (cls s1) ++ [matrix_request ["B"; "A"] "key" "driving"] ∧
     __number_of_requests_saved (cls s2)
       = __number_of_requests_saved (cls s1)).
Proof.
  apply (second_call_compares_members Fixtures.two_by_two
           MoreFixtures.offline 1 ["A"; "B"] 2 ["B"; "A"] "key"
           "travelDistance" "driving" MoreFixtures.caller_with_two_lists
           (Fixtures.routes_body Fixtures.two_by_two_entries)
           "key" "travelDuration" "driving").
  - reflexivity.
  - reflexivity.
  - reflexivity.
  - reflexivity.
  - vm_compute. reflexivity.
  - reflexivity.
  - exists (VNum (of_Z 200)). split; reflexivity.
Defined.

Lemma unsuccessful_response_is_not_reused_witness :
  let s1 := (ByReference.get_matrix Fixtures.unauthorized 1 "key"
               "travelDistance" "driving" MoreFixtures.caller).2 in
  let s2 := (ByReference.get_matrix Fixtures.two_by_two 1 "key"
               "travelDistance" "driving" s1).2 in
  trace (cls s2)
    = trace (cls s1) ++ [matrix_request ["A"; "B"] "key" "driving"] ∧
  __number_of_requests_saved (cls s2) = __number_of_requests_saved (cls s1).
Proof.
  apply (unsuccessful_response_is_not_reused Fixtures.unauthorized
           Fixtures.two_by_two 1 ["A"; "B"] 1 ["A"; "B"] "key"
           "travelDistance" "driving" MoreFixtures.caller
           Fixtures.unauthorized_body "key" "travelDistance" "driving").
  - reflexivity.
  - reflexivity.
  - reflexivity.
  - reflexivity.
  - vm_compute. reflexivity.
  - reflexivity.
  - exists (VNum (of_Z 401)). split; reflexivity.
Defined.

Lemma by_reference_as_by_value_witness :
  let by_value :=
    DistanceMatrix.get_matrix Fixtures.two_by_two ["A"; "B"] "key"
      "travelDistance" "driving" (cls MoreFixtures.caller) in
  let by_reference :=
    ByReference.get_matrix Fixtures.two_by_two 1 "key" "travelDistance"
      "driving" MoreFixtures.caller in
  by_reference.1 = by_value.1 ∧
  cls by_reference.2 = by_value.2 ∧
  lists by_reference.2 = lists MoreFixtures.caller ∧
  untouched by_reference.2.
Proof.
  apply (by_reference_as_by_value Fixtures.two_by_two 1 ["A"; "B"] "key"
           "travelDistance" "driving" MoreFixtures.caller).
  - reflexivity.
  - reflexivity.
Defined.

End ByReferenceFacts.
